(** * Conversation routing and specialty triage of the chat backend

    A shallow embedding of [server.js] (both variants of the service: the
    persistent [/chat/:conversationId] flow with doctor hand-off, and the
    [/temp-chat/:tempConversationId] flow with the triage log), together
    with the properties of the routing state machine.

    JavaScript strings are sequences of UTF-16 code units; they are
    modelled as [list N].  Handlers are programs in a small state and
    exception monad over the document store. *)

From Stdlib Require Import NArith List String Ascii Bool.
From stdpp Require Import base option list gmap.

Local Open Scope N_scope.
Local Open Scope list_scope.

(** ** JavaScript strings *)

Module JsString.

Definition jsstring : Type := list N.

(** Code points of a UTF-8 byte sequence: [acc] holds the bits read so
    far and [need] the number of continuation bytes still to come. *)
Fixpoint utf8_points (acc : N) (need : nat) (bs : list N) : list N :=
  match bs with
  | [] => []
  | b :: bs' =>
      match need with
      | O =>
          if b <? 128 then b :: utf8_points 0 O bs'
          else if b <? 224 then utf8_points (N.land b 31) 1%nat bs'
          else if b <? 240 then utf8_points (N.land b 15) 2%nat bs'
          else utf8_points (N.land b 7) 3%nat bs'
      | S O => (acc * 64 + N.land b 63) :: utf8_points 0 O bs'
      | S n => utf8_points (acc * 64 + N.land b 63) n bs'
      end
  end.

(** UTF-16 code units of one code point (a surrogate pair above the
    basic plane). *)
Definition utf16_units (cp : N) : list N :=
  if cp <? 65536 then [cp]
  else [55296 + (cp - 65536) / 1024; 56320 + (cp - 65536) mod 1024].

Definition bytes_of (s : string) : list N :=
  List.map (fun b => N_of_ascii (ascii_of_byte b)) (list_byte_of_string s).

(** The string a source literal denotes: the file is UTF-8, the engine
    stores UTF-16. *)
Definition js (s : string) : jsstring :=
  List.concat (List.map utf16_units (utf8_points 0 O (bytes_of s))).

(** The double quote and the line feed, which literals below avoid. *)
Definition dq : jsstring := [34].
Definition nl : jsstring := [10].

(** [Array.prototype.join] on strings. *)
Fixpoint join (sep : jsstring) (parts : list jsstring) : jsstring :=
  match parts with
  | [] => []
  | [p] => p
  | p :: rest => p ++ sep ++ join sep rest
  end.

(** A string is falsy exactly when it is empty. *)
Definition falsy (s : jsstring) : bool :=
  match s with [] => true | _ => false end.

(** [s.startsWith(t)] and [s.includes(t)]. *)
Fixpoint startsWith (s t : jsstring) : bool :=
  match t, s with
  | [], _ => true
  | _ :: _, [] => false
  | c :: t', d :: s' => (c =? d) && startsWith s' t'
  end.

Fixpoint includes (s t : jsstring) : bool :=
  startsWith s t ||
  match s with
  | [] => false
  | _ :: s' => includes s' t
  end.

(** [String.prototype.trim]: white space and line terminators of
    ECMAScript are removed at both ends. *)
Definition isWhiteSpace (c : N) : bool :=
  ((9 <=? c) && (c <=? 13)) || (c =? 32) || (c =? 160) || (c =? 5760)
  || ((8192 <=? c) && (c <=? 8202)) || (c =? 8232) || (c =? 8233)
  || (c =? 8239) || (c =? 8287) || (c =? 12288) || (c =? 65279).

Fixpoint trimStart (s : jsstring) : jsstring :=
  match s with
  | c :: s' => if isWhiteSpace c then trimStart s' else s
  | [] => []
  end.

Definition trimEnd (s : jsstring) : jsstring :=
  List.rev (trimStart (List.rev s)).

Definition trim (s : jsstring) : jsstring := trimEnd (trimStart s).

(** A model of [String.prototype.toLowerCase] on the Basic Latin,
    Latin-1, Latin Extended-A and Vietnamese letters (Latin Extended
    Additional, O and U with horn); other code units are kept.  The
    handlers below take the lower-casing function as a parameter, so
    the general theorems do not depend on this table; it is used to
    run the handlers on concrete requests. *)
Definition lowerUnit (c : N) : list N :=
  if (65 <=? c) && (c <=? 90) then [c + 32]
  else if (192 <=? c) && (c <=? 222) && negb (c =? 215) then [c + 32]
  else if (256 <=? c) && (c <=? 303) && N.even c then [c + 1]
  else if c =? 304 then [105; 775]
  else if (306 <=? c) && (c <=? 311) && N.even c then [c + 1]
  else if (313 <=? c) && (c <=? 328) && N.odd c then [c + 1]
  else if (330 <=? c) && (c <=? 375) && N.even c then [c + 1]
  else if c =? 376 then [255]
  else if (377 <=? c) && (c <=? 382) && N.odd c then [c + 1]
  else if (c =? 416) || (c =? 431) then [c + 1]
  else if (7680 <=? c) && (c <=? 7829) && N.even c then [c + 1]
  else if c =? 7838 then [223]
  else if (7840 <=? c) && (c <=? 7935) && N.even c then [c + 1]
  else [c].

Definition toLowerCaseLatin (s : jsstring) : jsstring :=
  List.concat (List.map lowerUnit s).

End JsString.

Import JsString.

(** ** Shared data model *)

(** [MessageSchema]: the role is one of the two enumerated strings; the
    content is required.  The time stamp, filled in by the store, plays no
    part in the routing and is left out. *)
Inductive Role := user | assistant.

Record Message := { role : Role; content : jsstring }.

Definition roleName (r : Role) : jsstring :=
  match r with user => js "user" | assistant => js "assistant" end.

(** [DoctorSchema]. *)
Record Doctor := {
  name : jsstring;
  specialty : jsstring;
  hospital : option jsstring;
  experience : option N
}.

(** [TriageSchema]; all three strings are required.  The model is declared
    in the second variant only; the first variant refers to it by name. *)
Record Triage := {
  triageUserId : jsstring;
  symptoms : jsstring;
  suggestedSpecialty : jsstring
}.

#[global] Instance Role_eq_dec : EqDecision Role.
Proof. solve_decision. Defined.
#[global] Instance Message_eq_dec : EqDecision Message.
Proof. solve_decision. Defined.
#[global] Instance Doctor_eq_dec : EqDecision Doctor.
Proof. solve_decision. Defined.

(** ** The text-completion oracle *)

(** What [await model.generateContent(prompt)] can hand back, as far as
    the member accesses of the handlers tell the cases apart. *)
Inductive GenResult :=
| ResultNullish                 (* result is null or undefined *)
| ResponseNullish               (* result.response is null or undefined *)
| TextMissing                   (* result.response.text is null or undefined *)
| TextThrows                    (* result.response.text() throws *)
| TextReturnsNullish            (* result.response.text() is null or undefined *)
| TextReturns (s : jsstring).   (* result.response.text() is the string s *)

Inductive GenOutcome := Rejects | Resolves (r : GenResult).

(** ** Exceptions and the handler monad *)

Inductive Exn :=
  TypeError | ReferenceError | UpstreamError | ValidationError | CastError.

(** A computation over the store [S] that returns or throws; the store
    survives a throw, as writes made before it are not undone. *)
Definition M (S A : Type) : Type := S -> (Exn + A) * S.

#[global] Instance M_ret {S} : MRet (M S) := fun A a s => (inr a, s).

#[global] Instance M_bind {S} : MBind (M S) := fun A B f m s =>
  match m s with
  | (inr a, s') => f a s'
  | (inl e, s') => (inl e, s')
  end.

Definition throw {S A} (e : Exn) : M S A := fun s => (inl e, s).

(** An expression that may throw, evaluated in the current store. *)
Definition eval {S A} (r : Exn + A) : M S A := fun s => (r, s).

(** The fixed string used when the oracle gives no text. *)
Definition noReply : jsstring := js "(Không có phản hồi)".

(** The classification prompt of [detectDoctorIntent], the same template
    literal in both variants. *)
Definition triageprompt (text : jsstring) : jsstring :=
  join nl
    [ [];
      js "Bạn là một bộ phân loại ngôn ngữ.";
      js "Nhiệm vụ: xác định xem người dùng có **MUỐN gặp bác sĩ** hay không.";
      [];
      js "- Nếu người dùng MUỐN gặp bác sĩ → trả về: " ++ dq ++ js "yes" ++ dq;
      js "- Nếu người dùng KHÔNG MUỐN hoặc PHỦ ĐỊNH → trả về: " ++ dq ++ js "no" ++ dq;
      js "- Không cần giải thích thêm.";
      [];
      js "Câu người dùng: " ++ dq ++ text ++ dq;
      js "  " ].

(** The specialty labels. *)
Definition noiTongQuat : jsstring := js "Nội tổng quát".
Definition timMach : jsstring := js "Tim mạch".
Definition daLieu : jsstring := js "Da liễu".
Definition taiMuiHong : jsstring := js "Tai mũi họng".

(** [Doctor.findOne({ specialty })] over the doctor collection in its
    natural order. *)
Definition findOneBySpecialty (doctors : list Doctor) (s : jsstring) : option Doctor :=
  List.find (fun d => bool_decide (specialty d = s)) doctors.

(** The stand-in record of the triage endpoints when no doctor matches. *)
Definition placeholderDoctor (suggestedSpecialty : jsstring) : Doctor :=
  {| name := js "Chưa có bác sĩ trong hệ thống";
     specialty := suggestedSpecialty;
     hospital := Some (js "Vui lòng đến bệnh viện gần nhất");
     experience := None |}.

(** ** Variant 1: persistent conversations with doctor hand-off *)

Module V1.

(** The [type] field of [ConversationSchema]. *)
Inductive ConvType := type_ai | type_doctor.

(** [ConversationSchema].  The nested [doctor] document is [None] until
    it is assigned (no handler produces the type [doctor] without it);
    [createdAt] and [summary] are not touched by the handlers and are
    left out. *)
Record Conversation := {
  userId : jsstring;
  type : ConvType;
  doctor : option Doctor;
  pendingDoctor : option Doctor;
  messages : list Message
}.

(** The store: the collections of the database and, for the proofs, the
    prompts sent to the oracle so far. *)
Record World := {
  conversations : gmap N Conversation;
  triages : list Triage;
  doctors : list Doctor;
  oracleLog : list jsstring
}.

(** The HTTP answers of the chat route. *)
Inductive Reply :=
| Status400
| Status404
| Status500 (e : Exn)
| Success (answer : jsstring) (msgs : list Message)
          (doc : option Doctor) (pending : option Doctor).

(** [new Conversation({ userId, messages: [] })] with the schema defaults. *)
Definition newConversation (uid : jsstring) : Conversation :=
  {| userId := uid; type := type_ai; doctor := None;
     pendingDoctor := None; messages := [] |}.

(** [convo.messages.push({ role, content })]. *)
Definition push (c : Conversation) (r : Role) (text : jsstring) : Conversation :=
  {| userId := userId c; type := type c; doctor := doctor c;
     pendingDoctor := pendingDoctor c;
     messages := messages c ++ [{| role := r; content := text |}] |}.

Definition setPendingDoctor (c : Conversation) (d : option Doctor) : Conversation :=
  {| userId := userId c; type := type c; doctor := doctor c;
     pendingDoctor := d; messages := messages c |}.

(** [convo.type = "doctor"; convo.doctor = d]. *)
Definition assignDoctor (c : Conversation) (d : Doctor) : Conversation :=
  {| userId := userId c; type := type_doctor; doctor := Some d;
     pendingDoctor := pendingDoctor c; messages := messages c |}.

(** Schema validation run by [save]: the required strings are not empty. *)
Definition validate (c : Conversation) : bool :=
  negb (falsy (userId c)) &&
  forallb (fun m => negb (falsy (content m))) (messages c).

(** [Conversation.findById(id)] for an identifier that is an ObjectId.
    The cast of the raw route parameter, which throws when the text is not
    an ObjectId, is in [V1Routes.chatRoute]. *)
Definition findById (id : N) : M World (option Conversation) :=
  fun w => (inr (conversations w !! id), w).

(** The store after document [c] has been written under [id], and after
    [prompt] has been sent to the oracle. *)
Definition stored (id : N) (c : Conversation) (w : World) : World :=
  {| conversations := <[id := c]> (conversations w); triages := triages w;
     doctors := doctors w; oracleLog := oracleLog w |}.

Definition logged (prompt : jsstring) (w : World) : World :=
  {| conversations := conversations w; triages := triages w;
     doctors := doctors w; oracleLog := oracleLog w ++ [prompt] |}.

Definition save (id : N) (c : Conversation) : M World unit :=
  fun w =>
    if validate c then (inr tt, stored id c w) else (inl ValidationError, w).

Definition findOne (s : jsstring) : M World (option Doctor) :=
  fun w => (inr (findOneBySpecialty (doctors w) s), w).

(** [try { ... } catch (err) { res.status(500) ... }]. *)
Definition tryCatch (body : M World Reply) : World -> Reply * World :=
  fun w =>
    match body w with
    | (inr r, w') => (r, w')
    | (inl e, w') => (Status500 e, w')
    end.

(** The word lists of the confirmation step. *)
Definition affirmative : list jsstring := [js "có"; js "ok"; js "đúng"; js "yes"].
Definition negative : list jsstring := [js "không"; js "no"; js "từ chối"].

(** [words.some(w => lower.includes(w))]. *)
Definition someIncluded (words : list jsstring) (lower : jsstring) : bool :=
  existsb (fun w => includes lower w) words.

Definition acceptNotice (d : Doctor) : jsstring :=
  js "✅ Bạn đã được chuyển sang mục chat với bác sĩ " ++ specialty d
  ++ js " (" ++ name d ++ js ").".

Definition declineNotice : jsstring :=
  js "❌ Bạn đã từ chối chuyển sang bác sĩ. Tiếp tục chat với AI.".

Definition confirmMsg (d : Doctor) : jsstring :=
  js "Bạn có muốn chuyển tiếp sang bác sĩ " ++ specialty d
  ++ js " (" ++ name d ++ js ") để được tư vấn không? (Có / Không)".

Definition doctorPrompt (d : Doctor) (question : jsstring) : jsstring :=
  join nl
    [ [];
      js "Bạn là " ++ name d ++ js ", chuyên khoa " ++ specialty d
        ++ js ", đang tư vấn cho bệnh nhân.";
      js "- Bạn có chuyên môn vừa phải, không đi khám sâu.";
      js "- Trả lời thân thiện, dễ hiểu, bằng tiếng Việt, giọng văn phù hợp bác sĩ.";
      js "- Không đưa ra chẩn đoán chắc chắn, chỉ gợi ý và khuyên bệnh nhân đi khám trực tiếp nếu cần.";
      [];
      js "Tin nhắn mới nhất từ bệnh nhân: " ++ dq ++ question ++ dq;
      [] ].

Definition aiPrompt (question : jsstring) : jsstring :=
  join nl
    [ [];
      js "Bạn là Mediverse, một y tá có kiến thức y khoa cơ bản.";
      js "- Tư vấn sức khỏe cơ bản bằng tiếng Việt.";
      js "- Không thay thế chẩn đoán bác sĩ.";
      js "- Trả lời ngắn gọn, dễ hiểu.";
      js "- Dùng giọng văn thân thiện, tích cực, dễ gần.";
      [];
      js "Tin nhắn mới nhất từ người dùng: " ++ dq ++ question ++ dq;
      [] ].

(** The rule chain of the chat route (section 3.2 of the handler), on the
    lower-cased question. *)
Definition chatSpecialty (lower : jsstring) : jsstring :=
  if includes lower (js "tim") || includes lower (js "huyết áp") then timMach
  else if includes lower (js "da") || includes lower (js "mụn") then daLieu
  else if includes lower (js "tai") || includes lower (js "mũi")
          || includes lower (js "họng") then taiMuiHong
  else noiTongQuat.

(** The rule chain of [triageRoute], on the lower-cased symptoms. *)
Definition triageSpecialty (lowerSymptoms : jsstring) : jsstring :=
  if includes lowerSymptoms (js "da") || includes lowerSymptoms (js "mụn") then daLieu
  else if includes lowerSymptoms (js "tim") || includes lowerSymptoms (js "huyết áp")
  then timMach
  else if includes lowerSymptoms (js "tai") || includes lowerSymptoms (js "mũi")
          || includes lowerSymptoms (js "họng") then taiMuiHong
  else noiTongQuat.

Section Handlers.

Variable toLowerCase : jsstring -> jsstring.
Variable generateContentOf : jsstring -> GenOutcome.

(** [await model.generateContent(prompt)]: the call is recorded, and a
    rejected promise is an exception. *)
Definition generateContent (prompt : jsstring) : M World GenResult :=
  fun w =>
    match generateContentOf prompt with
    | Rejects => (inl UpstreamError, logged prompt w)
    | Resolves r => (inr r, logged prompt w)
    end.

(** [result.response.text().trim().toLowerCase()], without guards. *)
Definition answerOf (result : GenResult) : Exn + jsstring :=
  match result with
  | ResultNullish | ResponseNullish | TextMissing | TextReturnsNullish => inl TypeError
  | TextThrows => inl UpstreamError
  | TextReturns s => inr (toLowerCase (trim s))
  end.

Definition detectDoctorIntent (text : jsstring) : M World bool :=
  result ← generateContent (triageprompt text);
  answer ← eval (answerOf result);
  mret (includes answer (js "yes")).

(** [result?.response?.text() ?? "(Không có phản hồi)"]: a missing
    [text] member is still called, hence the type error. *)
Definition textOrNoReply (result : GenResult) : Exn + jsstring :=
  match result with
  | ResultNullish | ResponseNullish | TextReturnsNullish => inr noReply
  | TextMissing => inl TypeError
  | TextThrows => inl UpstreamError
  | TextReturns s => inr s
  end.

(** Step 3.3: the nurse reply. *)
Definition nurseReply (conversationId : N) (question : jsstring)
    (convo : Conversation) : M World Reply :=
  result ← generateContent (aiPrompt question);
  answer ← eval (textOrNoReply result);
  let convo := push convo assistant answer in
  _ ← save conversationId convo;
  mret (Success answer (messages convo) None None).

(** Steps 2 and 3 of the chat route, reached when the confirmation step
    has not answered.  The test [convo.type === "doctor" && convo.doctor]
    is read on documents whose type is [doctor] only together with an
    assigned doctor, which is all the handlers ever store. *)
Definition afterPending (conversationId : N) (question lower : jsstring)
    (convo : Conversation) : M World Reply :=
  match type convo, doctor convo with
  | type_doctor, Some d =>
      result ← generateContent (doctorPrompt d question);
      answer ← eval (textOrNoReply result);
      let convo := push convo assistant answer in
      _ ← save conversationId convo;
      mret (Success answer (messages convo) (doctor convo) None)
  | _, _ =>
      wantsDoctor ← detectDoctorIntent question;
      if wantsDoctor : bool then
        let suggestedSpecialty := chatSpecialty lower in
        found ← findOne suggestedSpecialty;
        match found with
        | Some d =>
            let convo := setPendingDoctor convo (Some d) in
            let convo := push convo assistant (confirmMsg d) in
            _ ← save conversationId convo;
            mret (Success (confirmMsg d) (messages convo) None (Some d))
        | None => nurseReply conversationId question convo
        end
      else nurseReply conversationId question convo
  end.

(** [app.post('/chat/:conversationId', ...)], for a conversation
    identifier that is an ObjectId. *)
Definition chat (conversationId : N) (uid question : jsstring)
    : World -> Reply * World :=
  tryCatch (
    if falsy uid || falsy question then mret Status400 else
    found ← findById conversationId;
    match found with
    | None => mret Status404
    | Some convo =>
        let convo := push convo user question in
        let lower := toLowerCase question in
        match pendingDoctor convo with
        | Some pending =>
            if someIncluded affirmative lower then
              let convo := setPendingDoctor (assignDoctor convo pending) None in
              let notify := acceptNotice pending in
              let convo := push convo assistant notify in
              _ ← save conversationId convo;
              mret (Success notify (messages convo) (doctor convo) None)
            else if someIncluded negative lower then
              let convo := setPendingDoctor convo None in
              let convo := push convo assistant declineNotice in
              _ ← save conversationId convo;
              mret (Success declineNotice (messages convo) None None)
            else afterPending conversationId question lower convo
        | None => afterPending conversationId question lower convo
        end
    end).

(** [app.post('/conversation', ...)]: the new document is stored under a
    fresh identifier, which the success answer carries; [None] stands for
    the answers with status 400 and 500. *)
Definition createConversation (uid : jsstring) (fresh : N)
    : World -> option N * World :=
  fun w =>
    if falsy uid then (None, w)
    else
      match save fresh (newConversation uid) w with
      | (inr _, w') => (Some fresh, w')
      | (inl _, w') => (None, w')
      end.

(** [triageRoute] of this variant: no [Triage] model is declared in the
    file, so building the record raises a reference error after the
    specialty has been chosen. *)
Definition triageRoute (uid symptoms : jsstring) : World -> Reply * World :=
  tryCatch (
    if falsy uid || falsy symptoms then mret Status400 else
    let suggestedSpecialty := triageSpecialty (toLowerCase symptoms) in
    throw ReferenceError).

End Handlers.

(** The three modes of the routing state machine, read off the [type]
    field and the [pendingDoctor] pointer. *)
Inductive Mode := generic | doctorHandoffPending | doctorActive.

Definition mode (c : Conversation) : Mode :=
  match type c, pendingDoctor c with
  | type_doctor, _ => doctorActive
  | type_ai, Some _ => doctorHandoffPending
  | type_ai, None => generic
  end.

(** The confirmation step does not answer: nothing is pending, or the
    lower-cased text has neither an affirmative nor a negative word. *)
Definition notConfirming (c : Conversation) (lower : jsstring) : bool :=
  match pendingDoctor c with
  | None => true
  | Some _ => negb (someIncluded affirmative lower)
              && negb (someIncluded negative lower)
  end.

(** The oracle call returned and [result?.response?.text()] is null or
    undefined. *)
Definition yieldsNoText (result : GenResult) : bool :=
  match result with
  | ResultNullish | ResponseNullish | TextReturnsNullish => true
  | TextMissing | TextThrows | TextReturns _ => false
  end.

(** The data invariant of a conversation, and of the whole collection. *)
Definition invariant (c : Conversation) : Prop :=
  (is_Some (doctor c) <-> mode c = doctorActive) /\
  (is_Some (pendingDoctor c) <-> mode c = doctorHandoffPending).

Definition storeInvariant (w : World) : Prop :=
  forall id c, conversations w !! id = Some c -> invariant c.

(** The transitions of the routing state machine: [Turn c q a c'] when a
    successful turn on conversation [c] with question [q] can answer [a]
    and leave [c']. *)
Inductive Turn (c : Conversation) (question : jsstring)
  : jsstring -> Conversation -> Prop :=
| turn_accept d :
    pendingDoctor c = Some d ->
    Turn c question (acceptNotice d)
      (push (setPendingDoctor (assignDoctor (push c user question) d) None)
         assistant (acceptNotice d))
| turn_decline d :
    pendingDoctor c = Some d ->
    Turn c question declineNotice
      (push (setPendingDoctor (push c user question) None) assistant declineNotice)
| turn_doctor d answer :
    type c = type_doctor -> doctor c = Some d ->
    Turn c question answer (push (push c user question) assistant answer)
| turn_offer d :
    type c = type_ai \/ doctor c = None ->
    Turn c question (confirmMsg d)
      (push (setPendingDoctor (push c user question) (Some d))
         assistant (confirmMsg d))
| turn_nurse answer :
    type c = type_ai \/ doctor c = None ->
    Turn c question answer (push (push c user question) assistant answer).

(** What a run of a handler fragment establishes: [Q] on the value and
    store of a normal return, [E] on the store left by an exception. *)
Definition outcome {A} (m : M World A) (w : World)
    (Q : A -> World -> Prop) (E : World -> Prop) : Prop :=
  match m w with
  | (inr a, w') => Q a w'
  | (inl _, w') => E w'
  end.

(** A reply that is a success for a transition from [c0], stored under
    [id]. *)
Definition turned (w : World) (id : N) (c0 : Conversation)
    (question : jsstring) (r : Reply) (w' : World) : Prop :=
  exists answer c' doc pending,
    r = Success answer (messages c') doc pending /\
    Turn c0 question answer c' /\
    conversations w' = <[id := c']> (conversations w).

Definition untouched (w w' : World) : Prop :=
  conversations w' = conversations w.

(** A handler fragment that maintains the property [P] of the store,
    whether it returns or throws. *)
Definition preserves {A} (P : World -> Prop) (m : M World A) : Prop :=
  forall w, P w -> P (snd (m w)).

(** Every stored conversation passes the schema validation. *)
Definition storeValid (w : World) : Prop :=
  forall id c, conversations w !! id = Some c -> validate c = true.

End V1.

(** ** Variant 2: temporary conversations with the triage log *)

Module V2.

(** [TempConversationSchema]. *)
Record TempConversation := {
  userId : jsstring;
  messages : list Message;
  systemInstructions : jsstring
}.

Record World := {
  tempConversations : gmap N TempConversation;
  triages : list Triage;
  doctors : list Doctor;
  oracleLog : list jsstring
}.

Inductive Reply :=
| Status400
| Status404
| Status500 (e : Exn)
| ChatSuccess (answer : jsstring) (msgs : list Message)
              (triage : option Triage) (doc : option Doctor)
| TriageSuccess (triage : Triage) (doc : Doctor).

Definition defaultInstructions : jsstring :=
  js "You are a nurse. Your name is Mediverse. You have basic knowledge of medicine, healthcare, and health, always reply user by only vietnamese.".

Definition newTempConversation (uid : jsstring) : TempConversation :=
  {| userId := uid; messages := []; systemInstructions := defaultInstructions |}.

Definition push (c : TempConversation) (r : Role) (text : jsstring) : TempConversation :=
  {| userId := userId c;
     messages := messages c ++ [{| role := r; content := text |}];
     systemInstructions := systemInstructions c |}.

Definition validate (c : TempConversation) : bool :=
  negb (falsy (userId c)) &&
  forallb (fun m => negb (falsy (content m))) (messages c).

Definition validateTriage (t : Triage) : bool :=
  negb (falsy (triageUserId t)) && negb (falsy (symptoms t))
  && negb (falsy (suggestedSpecialty t)).

Definition findById (id : N) : M World (option TempConversation) :=
  fun w => (inr (tempConversations w !! id), w).

Definition stored (id : N) (c : TempConversation) (w : World) : World :=
  {| tempConversations := <[id := c]> (tempConversations w);
     triages := triages w; doctors := doctors w; oracleLog := oracleLog w |}.

Definition logged (prompt : jsstring) (w : World) : World :=
  {| tempConversations := tempConversations w; triages := triages w;
     doctors := doctors w; oracleLog := oracleLog w ++ [prompt] |}.

Definition recorded (t : Triage) (w : World) : World :=
  {| tempConversations := tempConversations w; triages := triages w ++ [t];
     doctors := doctors w; oracleLog := oracleLog w |}.

Definition save (id : N) (c : TempConversation) : M World unit :=
  fun w =>
    if validate c then (inr tt, stored id c w) else (inl ValidationError, w).

(** [await triage.save()]: the record is appended to the log. *)
Definition saveTriage (t : Triage) : M World unit :=
  fun w =>
    if validateTriage t then (inr tt, recorded t w) else (inl ValidationError, w).

Definition findOne (s : jsstring) : M World (option Doctor) :=
  fun w => (inr (findOneBySpecialty (doctors w) s), w).

Definition tryCatch (body : M World Reply) : World -> Reply * World :=
  fun w =>
    match body w with
    | (inr r, w') => (r, w')
    | (inl e, w') => (Status500 e, w')
    end.

(** The rule chain shared by the temp-chat route and [triageRoute]. *)
Definition triageSpecialty (lower : jsstring) : jsstring :=
  if includes lower (js "da") || includes lower (js "mụn") then daLieu
  else if includes lower (js "tim") || includes lower (js "huyết áp") then timMach
  else if includes lower (js "tai") || includes lower (js "mũi")
          || includes lower (js "họng") then taiMuiHong
  else noiTongQuat.

(** [messages.map(m => role + ": " + content).join("\n")]. *)
Definition history (msgs : list Message) : jsstring :=
  join nl (List.map (fun m => roleName (role m) ++ js ": " ++ content m) msgs).

Definition finalprompt (c : TempConversation) : jsstring :=
  join nl
    [ [];
      systemInstructions c;
      [];
      js "Đây là toàn bộ lịch sử hội thoại:";
      history (messages c);
      [] ].

Section Handlers.

Variable toLowerCase : jsstring -> jsstring.
Variable generateContentOf : jsstring -> GenOutcome.

Definition generateContent (prompt : jsstring) : M World GenResult :=
  fun w =>
    match generateContentOf prompt with
    | Rejects => (inl UpstreamError, logged prompt w)
    | Resolves r => (inr r, logged prompt w)
    end.

(** [result?.response?.text?.().trim().toLowerCase() || ""]: the chain
    stops at a missing member, but not at a nullish return of [text()]. *)
Definition answerOf (result : GenResult) : Exn + jsstring :=
  match result with
  | ResultNullish | ResponseNullish | TextMissing => inr []
  | TextThrows => inl UpstreamError
  | TextReturnsNullish => inl TypeError
  | TextReturns s =>
      let a := toLowerCase (trim s) in
      inr (if falsy a then [] else a)
  end.

Definition detectDoctorIntent (text : jsstring) : M World bool :=
  if falsy text then mret false else
  result ← generateContent (triageprompt text);
  answer ← eval (answerOf result);
  mret (includes answer (js "yes")).

(** [result?.response?.text?.() ?? '(Không có phản hồi)']. *)
Definition textOrNoReply (result : GenResult) : Exn + jsstring :=
  match result with
  | ResultNullish | ResponseNullish | TextMissing | TextReturnsNullish => inr noReply
  | TextThrows => inl UpstreamError
  | TextReturns s => inr s
  end.

(** The local routing of the temp-chat route: triage record and doctor. *)
Definition routeLocally (uid question : jsstring) (wantsDoctor : bool)
    : M World (option Triage * option Doctor) :=
  if wantsDoctor then
    let lower := toLowerCase question in
    let triage := {| triageUserId := uid; symptoms := question;
                     suggestedSpecialty := triageSpecialty lower |} in
    _ ← saveTriage triage;
    found ← findOne (suggestedSpecialty triage);
    match found with
    | Some d => mret (Some triage, Some d)
    | None => mret (Some triage, Some (placeholderDoctor (suggestedSpecialty triage)))
    end
  else mret (None, None).

(** [app.post('/temp-chat/:tempConversationId', ...)]. *)
Definition tempChat (tempConversationId : N) (uid question : jsstring)
    : World -> Reply * World :=
  tryCatch (
    if falsy uid || falsy question then mret Status400 else
    found ← findById tempConversationId;
    match found with
    | None => mret Status404
    | Some tempConvo =>
        let tempConvo := push tempConvo user question in
        wantsDoctor ← detectDoctorIntent question;
        routed ← routeLocally uid question wantsDoctor;
        result ← generateContent (finalprompt tempConvo);
        answer ← eval (textOrNoReply result);
        let tempConvo := push tempConvo assistant answer in
        _ ← save tempConversationId tempConvo;
        mret (ChatSuccess answer (messages tempConvo) (fst routed) (snd routed))
    end).

(** [triageRoute], mounted on [POST /triage]. *)
Definition triageRoute (uid symptomText : jsstring) : World -> Reply * World :=
  tryCatch (
    if falsy uid || falsy symptomText then mret Status400 else
    let triage := {| triageUserId := uid; symptoms := symptomText;
                     suggestedSpecialty := triageSpecialty (toLowerCase symptomText) |} in
    _ ← saveTriage triage;
    found ← findOne (suggestedSpecialty triage);
    match found with
    | Some d => mret (TriageSuccess triage d)
    | None => mret (TriageSuccess triage (placeholderDoctor (suggestedSpecialty triage)))
    end).

End Handlers.

End V2.

(** ** Sample data for running the handlers *)

Module Sample.

Definition drAn : Doctor :=
  {| name := js "BS. Nguyễn Văn An"; specialty := timMach;
     hospital := Some (js "Bệnh viện Chợ Rẫy"); experience := Some 12 |}.

Definition drBinh : Doctor :=
  {| name := js "BS. Trần Thị Bình"; specialty := daLieu;
     hospital := Some (js "Bệnh viện Da liễu"); experience := Some 8 |}.

Definition uid : jsstring := js "u1".

(** An oracle stub: one outcome for the classification prompt, one for
    every other prompt. *)
Definition stub (intent other : GenOutcome) (prompt : jsstring) : GenOutcome :=
  if startsWith prompt (nl ++ js "Bạn là một bộ phân loại ngôn ngữ.") then intent
  else other.

Definition says (s : string) : GenOutcome := Resolves (TextReturns (js s)).

Definition pendingAn : V1.Conversation :=
  {| V1.userId := uid; V1.type := V1.type_ai; V1.doctor := None;
     V1.pendingDoctor := Some drAn;
     V1.messages := [ {| role := user; content := js "tôi muốn khám tim" |};
                      {| role := assistant; content := V1.confirmMsg drAn |} ] |}.

Definition withAn : V1.Conversation :=
  {| V1.userId := uid; V1.type := V1.type_doctor; V1.doctor := Some drAn;
     V1.pendingDoctor := None; V1.messages := [] |}.

Definition fresh1 : V1.Conversation := V1.newConversation uid.

(** The oracle that always resolves to an object without [response]. *)
Definition emptyResult (prompt : jsstring) : GenOutcome := Resolves ResponseNullish.

Definition world1 (c : V1.Conversation) : V1.World :=
  {| V1.conversations := {[ 7 := c ]};
     V1.triages := [];
     V1.doctors := [drAn; drBinh];
     V1.oracleLog := [] |}.

Definition world2 : V2.World :=
  {| V2.tempConversations := {[ 7 := V2.newTempConversation uid ]};
     V2.triages := [];
     V2.doctors := [drAn; drBinh];
     V2.oracleLog := [] |}.

End Sample.

(** ** Variant 1: the conversation and doctor-info routes *)

Module V1Routes.

(** The answers of the routes below. *)
Inductive Reply :=
| NotFound
| Deleted
| ServerError (e : Exn)
| Found (msgs : list Message) (doc : option Doctor)
| Listing (items : list (N * jsstring))
| DoctorInfo (recent : list (option Doctor)) (suggested : option Doctor).

#[global] Instance ConvType_eq_dec : EqDecision V1.ConvType.
Proof. solve_decision. Defined.

Definition noContent : jsstring := js "(Không có nội dung)".

(** [c.messages[0]?.content.slice(0, 30) || "(Không có nội dung)"]. *)
Definition preview (c : V1.Conversation) : jsstring :=
  match V1.messages c with
  | [] => noContent
  | m :: _ =>
      let p := take 30 (content m) in
      if falsy p then noContent else p
  end.

Definition withConversations (m : gmap N V1.Conversation) (w : V1.World) : V1.World :=
  {| V1.conversations := m; V1.triages := V1.triages w;
     V1.doctors := V1.doctors w; V1.oracleLog := V1.oracleLog w |}.

(** [Conversation.deleteMany({ messages: { $size: 0 } })]. *)
Definition purgeEmpty (w : V1.World) : V1.World :=
  withConversations
    (filter (fun kv => V1.messages (snd kv) <> []) (V1.conversations w)) w.

(** The store keeps strings as UTF-8, so a surrogate code unit that is
    not part of a pair comes back as U+FFFD when a document is read. *)
Definition isHighSurrogate (c : N) : bool := (55296 <=? c) && (c <=? 56319).
Definition isLowSurrogate (c : N) : bool := (56320 <=? c) && (c <=? 57343).

Fixpoint toWellFormed (s : jsstring) : jsstring :=
  match s with
  | [] => []
  | c :: rest =>
      if isLowSurrogate c then 65533 :: toWellFormed rest
      else if isHighSurrogate c then
        match rest with
        | d :: rest' =>
            if isLowSurrogate d then c :: d :: toWellFormed rest'
            else 65533 :: toWellFormed rest
        | [] => [65533]
        end
      else c :: toWellFormed rest
  end.

Definition readMessage (m : Message) : Message :=
  {| role := role m; content := toWellFormed (content m) |}.

Definition readDoctor (d : Doctor) : Doctor :=
  {| name := toWellFormed (name d);
     specialty := toWellFormed (specialty d);
     hospital := toWellFormed <$> hospital d;
     experience := experience d |}.

Section Identifiers.

(** The cast of a route parameter to an ObjectId, [None] when the text is
    not one.  The accepted syntax is the driver's and is a parameter. *)
Variable castObjectId : jsstring -> option N.

Variable toLowerCase : jsstring -> jsstring.
Variable generateContentOf : jsstring -> GenOutcome.

(** [app.post('/chat/:conversationId', ...)] from the raw route
    parameter: the request is validated first; then [findById] casts the
    parameter, and a failed cast is caught and answered with status 500. *)
Definition chatRoute (conversationId uid question : jsstring)
    : V1.World -> V1.Reply * V1.World :=
  fun w =>
    if falsy uid || falsy question then (V1.Status400, w)
    else
      match castObjectId conversationId with
      | None => (V1.Status500 CastError, w)
      | Some id => V1.chat toLowerCase generateContentOf id uid question w
      end.

(** [app.get('/conversation/:id', ...)]. *)
Definition getConversation (id : jsstring) (w : V1.World) : Reply * V1.World :=
  match castObjectId id with
  | None => (ServerError CastError, w)
  | Some oid =>
      match V1.conversations w !! oid with
      | None => (NotFound, w)
      | Some convo =>
          (Found (readMessage <$> V1.messages convo) (readDoctor <$> V1.doctor convo), w)
      end
  end.

(** [app.delete('/conversation/:id', ...)], on [findByIdAndDelete]. *)
Definition deleteConversation (id : jsstring) (w : V1.World) : Reply * V1.World :=
  match castObjectId id with
  | None => (ServerError CastError, w)
  | Some oid =>
      match V1.conversations w !! oid with
      | None => (NotFound, w)
      | Some _ => (Deleted, withConversations (delete oid (V1.conversations w)) w)
      end
  end.

End Identifiers.

Section Queries.

(** [.sort({ createdAt: -1 })]: the creation time is not part of the
    modelled document, so the order of a sorted query is a parameter. *)
Variable byCreatedAt : list (N * V1.Conversation) -> list (N * V1.Conversation).

(** [Conversation.find(filter).sort({ createdAt: -1 })]. *)
Definition findSorted (matches : V1.Conversation -> Prop)
    `{!forall c, Decision (matches c)} (w : V1.World)
    : list (N * V1.Conversation) :=
  byCreatedAt (map_to_list (filter (fun kv => matches (snd kv)) (V1.conversations w))).

(** [app.get("/conversations/:userId", ...)]: the empty conversations of
    every user are deleted, then the user's conversations are listed. *)
Definition listConversations (uid : jsstring) (w : V1.World) : Reply * V1.World :=
  let w' := purgeEmpty w in
  (Listing ((fun kv => (fst kv, preview (snd kv)))
              <$> findSorted (fun c => V1.userId c = uid) w'),
   w').

(** [app.get("/doctor-info", ...)]: the doctors of the three most recent
    doctor conversations of the user, and any one doctor. *)
Definition doctorInfo (uid : jsstring) (w : V1.World) : Reply * V1.World :=
  let recentConvos :=
    take 3 (findSorted (fun c => V1.userId c = uid /\ V1.type c = V1.type_doctor
                                 /\ V1.doctor c <> None) w) in
  (DoctorInfo ((fun kv => V1.doctor (snd kv)) <$> recentConvos) (head (V1.doctors w)), w).

End Queries.

(** Whether a reply of the chat route is a success. *)
Definition isSuccess (r : V1.Reply) : bool :=
  match r with
  | V1.Success _ _ _ _ => true
  | _ => false
  end.

End V1Routes.

(** ** Variant 2: creating a temporary conversation *)

Module V2Routes.

(** [app.post('/temp-conversation', ...)]: [Some id] for the success
    answer, [None] for the answers with status 400 and 500. *)
Definition createTempConversation (uid : jsstring) (fresh : N)
    : V2.World -> option N * V2.World :=
  fun w =>
    if falsy uid then (None, w)
    else
      match V2.save fresh (V2.newTempConversation uid) w with
      | (inr _, w') => (Some fresh, w')
      | (inl _, w') => (None, w')
      end.

End V2Routes.

(** ** Sample data for the other routes *)

Module SampleRoutes.

Definition talk (uid : jsstring) (text : string) : V1.Conversation :=
  {| V1.userId := uid; V1.type := V1.type_ai; V1.doctor := None;
     V1.pendingDoctor := None;
     V1.messages := [ {| role := user; content := js text |} ] |}.

Definition seenBy (uid : jsstring) (d : Doctor) : V1.Conversation :=
  {| V1.userId := uid; V1.type := V1.type_doctor; V1.doctor := Some d;
     V1.pendingDoctor := None;
     V1.messages := [ {| role := user; content := js "chào bác sĩ" |} ] |}.

(** Three conversations of the sample user, one of them empty, and one of
    another user. *)
Definition archive : V1.World :=
  {| V1.conversations :=
       <[ 1 := talk Sample.uid "tôi bị ho và sốt từ hôm qua, có cần đi khám không ạ?" ]>
       (<[ 2 := V1.newConversation Sample.uid ]>
       (<[ 3 := seenBy Sample.uid Sample.drAn ]>
       (<[ 4 := talk (js "u2") "xin chào" ]> ∅)));
     V1.triages := [];
     V1.doctors := [Sample.drAn; Sample.drBinh];
     V1.oracleLog := [] |}.

(** A cast for the sample runs: twenty-four hexadecimal digits. *)
Definition hexDigit (c : N) : option N :=
  if (48 <=? c) && (c <=? 57) then Some (c - 48)
  else if (97 <=? c) && (c <=? 102) then Some (c - 87)
  else if (65 <=? c) && (c <=? 70) then Some (c - 55)
  else None.

Fixpoint hexValue (acc : N) (s : jsstring) : option N :=
  match s with
  | [] => Some acc
  | c :: rest =>
      match hexDigit c with
      | Some v => hexValue (acc * 16 + v) rest
      | None => None
      end
  end.

Definition hexObjectId (s : jsstring) : option N :=
  if Nat.eqb (length s) 24 then hexValue 0 s else None.

(** An order for the sample runs: the order of the identifiers. *)
Definition unsorted (l : list (N * V1.Conversation)) : list (N * V1.Conversation) := l.

End SampleRoutes.

(** * Properties *)

(** ** Strings *)

Lemma startsWith_spec (s t : jsstring) :
  startsWith s t = true <-> exists post, s = t ++ post.
Proof.
  revert s. induction t as [|c t IH]; intros s; simpl.
  - split; [intros _; now exists s | now destruct s].
  - destruct s as [|d s]; cbn [startsWith].
    + split; [discriminate | intros [post H]; discriminate].
    + rewrite andb_true_iff, N.eqb_eq, IH. split.
      * intros [-> [post ->]]. now exists post.
      * intros [post H]. injection H as -> ->. split; [reflexivity | now exists post].
Qed.

(** [includes] is substring containment. *)
Lemma includes_spec (s t : jsstring) :
  includes s t = true <-> exists pre post, s = pre ++ t ++ post.
Proof.
  induction s as [|d s IH].
  - cbn [includes]. rewrite orb_false_r, startsWith_spec. split.
    + intros [post H]. now exists [], post.
    + intros [pre [post H]]. destruct pre; [now exists post | discriminate].
  - cbn [includes]. rewrite orb_true_iff, IH, startsWith_spec. split.
    + intros [[post H] | [pre [post H]]].
      * now exists [], post.
      * exists (d :: pre), post. now rewrite H.
    + intros [pre [post H]]. destruct pre as [|e pre].
      * left. now exists post.
      * right. injection H as _ H. now exists pre, post.
Qed.

Lemma includes_middle (pre t post : jsstring) : includes (pre ++ t ++ post) t = true.
Proof. apply includes_spec. now exists pre, post. Qed.

Example js_co : js "có" = [99; 243].
Proof. reflexivity. Qed.

Example js_tu_choi : js "từ chối" = [116; 7915; 32; 99; 104; 7889; 105].
Proof. reflexivity. Qed.

Example lower_DUNG : toLowerCaseLatin (js "ĐÚNG") = js "đúng".
Proof. reflexivity. Qed.

Example lower_HUYET_AP : toLowerCaseLatin (js "Huyết Áp") = js "huyết áp".
Proof. reflexivity. Qed.

Example trim_yes : trim (js "  Yes. ") = js "Yes.".
Proof. reflexivity. Qed.

Example khong_has_no_no : includes (js "không") (js "no") = false.
Proof. reflexivity. Qed.

Lemma falsy_app (a b : jsstring) : falsy a = false -> falsy (a ++ b) = false.
Proof. destruct a; [discriminate | reflexivity]. Qed.

Lemma someIncluded_spec (words : list jsstring) (lower : jsstring) :
  V1.someIncluded words lower = true <->
  exists w, In w words /\ includes lower w = true.
Proof. unfold V1.someIncluded. apply existsb_exists. Qed.

(** ** Schema validation *)

(** The proofs step through the handlers; the string-level definitions
    stay folded while they do. *)
Arguments js : simpl never.
Arguments includes : simpl never.
Arguments triageprompt : simpl never.
Arguments findOneBySpecialty : simpl never.
Arguments placeholderDoctor : simpl never.
Arguments V1.someIncluded : simpl never.
Arguments V1.chatSpecialty : simpl never.
Arguments V1.triageSpecialty : simpl never.
Arguments V1.acceptNotice : simpl never.
Arguments V1.confirmMsg : simpl never.
Arguments V1.declineNotice : simpl never.
Arguments V1.doctorPrompt : simpl never.
Arguments V1.aiPrompt : simpl never.
Arguments V1.validate : simpl never.
Arguments V1.push : simpl never.
Arguments V1.setPendingDoctor : simpl never.
Arguments V1.assignDoctor : simpl never.
Arguments V1.stored : simpl never.
Arguments V1.logged : simpl never.
Arguments V2.stored : simpl never.
Arguments V2.logged : simpl never.
Arguments V2.recorded : simpl never.
Arguments V2.triageSpecialty : simpl never.
Arguments V2.finalprompt : simpl never.
Arguments V2.validate : simpl never.
Arguments V2.validateTriage : simpl never.
Arguments V2.push : simpl never.

Lemma validate_push (c : V1.Conversation) (r : Role) (text : jsstring) :
  V1.validate (V1.push c r text) = V1.validate c && negb (falsy text).
Proof.
  unfold V1.validate, V1.push. simpl. rewrite forallb_app. simpl.
  now rewrite andb_true_r, andb_assoc.
Qed.

Lemma validate_setPendingDoctor (c : V1.Conversation) (d : option Doctor) :
  V1.validate (V1.setPendingDoctor c d) = V1.validate c.
Proof. reflexivity. Qed.

Lemma validate_assignDoctor (c : V1.Conversation) (d : Doctor) :
  V1.validate (V1.assignDoctor c d) = V1.validate c.
Proof. reflexivity. Qed.

Lemma validate_push2 (c : V2.TempConversation) (r : Role) (text : jsstring) :
  V2.validate (V2.push c r text) = V2.validate c && negb (falsy text).
Proof.
  unfold V2.validate, V2.push. simpl. rewrite forallb_app. simpl.
  now rewrite andb_true_r, andb_assoc.
Qed.

Lemma acceptNotice_nonempty (d : Doctor) : falsy (V1.acceptNotice d) = false.
Proof. reflexivity. Qed.

Lemma confirmMsg_nonempty (d : Doctor) : falsy (V1.confirmMsg d) = false.
Proof. reflexivity. Qed.

(** The notices name the doctor's specialty and the doctor. *)
Lemma acceptNotice_names_doctor (d : Doctor) :
  includes (V1.acceptNotice d) (specialty d) = true /\
  includes (V1.acceptNotice d) (name d) = true.
Proof.
  unfold V1.acceptNotice. split; [apply includes_middle |].
  apply includes_spec.
  exists (js "✅ Bạn đã được chuyển sang mục chat với bác sĩ " ++ specialty d ++ js " ("),
    (js ").").
  now rewrite <- !app_assoc.
Qed.

Lemma confirmMsg_names_doctor (d : Doctor) :
  includes (V1.confirmMsg d) (specialty d) = true /\
  includes (V1.confirmMsg d) (name d) = true.
Proof.
  unfold V1.confirmMsg. split; [apply includes_middle |].
  apply includes_spec.
  exists (js "Bạn có muốn chuyển tiếp sang bác sĩ " ++ specialty d ++ js " ("),
    (js ") để được tư vấn không? (Có / Không)").
  now rewrite <- !app_assoc.
Qed.

Lemma noReply_nonempty : falsy noReply = false.
Proof. reflexivity. Qed.

Create Rewrite HintDb validate.

#[local] Hint Rewrite validate_push validate_setPendingDoctor validate_assignDoctor
  validate_push2 acceptNotice_nonempty confirmMsg_nonempty noReply_nonempty : validate.

(** Projections of the updated stores. *)
Lemma doctors_logged (p : jsstring) (w : V1.World) :
  V1.doctors (V1.logged p w) = V1.doctors w.
Proof. reflexivity. Qed.

Lemma conversations_logged (p : jsstring) (w : V1.World) :
  V1.conversations (V1.logged p w) = V1.conversations w.
Proof. reflexivity. Qed.

Lemma conversations_stored (id : N) (c : V1.Conversation) (w : V1.World) :
  V1.conversations (V1.stored id c w) = <[id := c]> (V1.conversations w).
Proof. reflexivity. Qed.

Lemma oracleLog_stored (id : N) (c : V1.Conversation) (w : V1.World) :
  V1.oracleLog (V1.stored id c w) = V1.oracleLog w.
Proof. reflexivity. Qed.

Lemma oracleLog_logged (p : jsstring) (w : V1.World) :
  V1.oracleLog (V1.logged p w) = V1.oracleLog w ++ [p].
Proof. reflexivity. Qed.

Create Rewrite HintDb world.

#[local] Hint Rewrite doctors_logged conversations_logged conversations_stored
  oracleLog_stored oracleLog_logged : world.

(** Unfolds the monad and the store operations of variant 1. *)
Ltac run1 :=
  unfold V1.tryCatch, V1.afterPending, V1.nurseReply, V1.generateContent,
    V1.findById, V1.findOne, V1.save, throw, eval, mbind, M_bind, mret, M_ret;
  simpl.

Ltac run2 :=
  unfold V2.tryCatch, V2.routeLocally, V2.generateContent, V2.findById,
    V2.findOne, V2.save, V2.saveTriage, throw, eval, mbind, M_bind, mret, M_ret;
  simpl.

(** ** The confirmation step of the chat route *)

Section ChatRoute.

Variable toLowerCase : jsstring -> jsstring.
Variable oracle : jsstring -> GenOutcome.

Abbreviation chat := (V1.chat toLowerCase oracle).

(** C1.  In a conversation with a pending doctor (in particular every
    conversation in the hand-off pending mode), a message whose
    lower-cased text contains one of the words "có", "ok", "đúng", "yes"
    moves the conversation to the doctor mode, assigns the doctor that was
    pending, clears the pending pointer, appends after the user message
    exactly one assistant message, the hand-off notice with the doctor's
    specialty and name, and answers with that notice; no prompt is sent to
    the oracle. *)
Theorem chat_accept_handoff (w : V1.World) (id : N) (uid question : jsstring)
    (c : V1.Conversation) (d : Doctor) :
  V1.conversations w !! id = Some c ->
  V1.validate c = true ->
  V1.pendingDoctor c = Some d ->
  falsy uid = false -> falsy question = false ->
  V1.someIncluded V1.affirmative (toLowerCase question) = true ->
  let notify := V1.acceptNotice d in
  let c' := {| V1.userId := V1.userId c; V1.type := V1.type_doctor;
               V1.doctor := Some d; V1.pendingDoctor := None;
               V1.messages := V1.messages c
                 ++ [ {| role := user; content := question |} ]
                 ++ [ {| role := assistant; content := notify |} ] |} in
  chat id uid question w =
    (V1.Success notify (V1.messages c') (Some d) None, V1.stored id c' w)
  /\ V1.oracleLog (V1.stored id c' w) = V1.oracleLog w
  /\ V1.mode c' = V1.doctorActive
  /\ notify = js "✅ Bạn đã được chuyển sang mục chat với bác sĩ "
                ++ specialty d ++ js " (" ++ name d ++ js ").".
Proof.
  intros Hc Hv Hp Hu Hq Hyes notify c'. split; [| repeat split; reflexivity].
  unfold V1.chat. rewrite Hu, Hq. run1. rewrite Hc. simpl.
  rewrite Hp, Hyes. run1.
  autorewrite with validate. rewrite Hv, Hq. simpl.
  subst c' notify. unfold V1.push. simpl. now rewrite <- app_assoc.
Qed.

(** In the hand-off pending mode the conversation is of the [ai] type and
    has a pending doctor. *)
Lemma mode_pending (c : V1.Conversation) :
  V1.mode c = V1.doctorHandoffPending <->
  V1.type c = V1.type_ai /\ exists d, V1.pendingDoctor c = Some d.
Proof.
  unfold V1.mode. destruct (V1.type c), (V1.pendingDoctor c) as [d|]; split;
    try discriminate; try (intros [? [? ?]]; discriminate); eauto.
Qed.

Lemma mode_generic (c : V1.Conversation) :
  V1.mode c = V1.generic <->
  V1.type c = V1.type_ai /\ V1.pendingDoctor c = None.
Proof.
  unfold V1.mode. destruct (V1.type c), (V1.pendingDoctor c); split;
    try discriminate; try (intros [? ?]; discriminate); eauto.
Qed.

Lemma mode_active (c : V1.Conversation) :
  V1.mode c = V1.doctorActive <-> V1.type c = V1.type_doctor.
Proof.
  unfold V1.mode. destruct (V1.type c), (V1.pendingDoctor c); split;
    try discriminate; eauto.
Qed.


(** ** The generic branch of the chat route *)

(** A returning classification has sent exactly the classification
    prompt. *)
Lemma detectDoctorIntent_logged (text : jsstring) (w w1 : V1.World) (r : Exn + bool) :
  V1.detectDoctorIntent toLowerCase oracle text w = (r, w1) ->
  w1 = V1.logged (triageprompt text) w.
Proof.
  unfold V1.detectDoctorIntent. run1.
  destruct (oracle (triageprompt text)) as [|res]; [congruence |].
  destruct (V1.answerOf toLowerCase res); congruence.
Qed.



(** When the confirmation step does not answer, the route continues with
    steps 2 and 3 on the conversation holding the user message. *)
Lemma chat_falls_through (w : V1.World) (id : N) (uid question : jsstring)
    (c : V1.Conversation) :
  V1.conversations w !! id = Some c ->
  falsy uid = false -> falsy question = false ->
  V1.notConfirming c (toLowerCase question) = true ->
  chat id uid question w =
    V1.tryCatch (V1.afterPending toLowerCase oracle id question
                   (toLowerCase question) (V1.push c user question)) w.
Proof.
  intros Hc Hu Hq Hn. unfold V1.chat, V1.tryCatch. rewrite Hu, Hq.
  unfold V1.findById, mbind, M_bind. simpl. rewrite Hc.
  unfold V1.notConfirming in Hn.
  change (V1.pendingDoctor (V1.push c user question)) with (V1.pendingDoctor c).
  destruct (V1.pendingDoctor c) as [d|]; [| reflexivity].
  apply andb_true_iff in Hn as [Ha Hb].
  apply negb_true_iff in Ha, Hb. now rewrite Ha, Hb.
Qed.

(** Step 3.3 on its own: the nurse prompt is sent and its answer, or the
    placeholder, is appended and returned. *)
Lemma nurseReply_returns (w : V1.World) (id : N) (question answer : jsstring)
    (c : V1.Conversation) (result : GenResult) :
  V1.validate c = true ->
  oracle (V1.aiPrompt question) = Resolves result ->
  V1.textOrNoReply result = inr answer ->
  falsy answer = false ->
  V1.nurseReply oracle id question c w =
    (inr (V1.Success answer (V1.messages (V1.push c assistant answer)) None None),
     V1.stored id (V1.push c assistant answer) (V1.logged (V1.aiPrompt question) w)).
Proof.
  intros Hv Ho Ht Ha. run1. rewrite Ho, Ht.
  autorewrite with validate. now rewrite Hv, Ha.
Qed.

(** The generic branch when no hand-off is offered. *)
Lemma afterPending_nurse (w w1 : V1.World) (id : N) (question lower answer : jsstring)
    (c : V1.Conversation) (wants : bool) (result : GenResult) :
  V1.validate c = true ->
  V1.type c = V1.type_ai ->
  V1.detectDoctorIntent toLowerCase oracle question w = (inr wants, w1) ->
  wants = false \/ findOneBySpecialty (V1.doctors w) (V1.chatSpecialty lower) = None ->
  oracle (V1.aiPrompt question) = Resolves result ->
  V1.textOrNoReply result = inr answer ->
  falsy answer = false ->
  V1.afterPending toLowerCase oracle id question lower c w =
    (inr (V1.Success answer (V1.messages (V1.push c assistant answer)) None None),
     V1.stored id (V1.push c assistant answer)
       (V1.logged (V1.aiPrompt question) (V1.logged (triageprompt question) w))).
Proof.
  intros Hv Ht Hint Hor Ho Hx Ha.
  pose proof (detectDoctorIntent_logged _ _ _ _ Hint) as ->.
  unfold V1.afterPending. rewrite Ht.
  unfold mbind at 1, M_bind at 1. rewrite Hint.
  destruct Hor as [-> | Hnone].
  - eapply nurseReply_returns; eassumption.
  - destruct wants; [| eapply nurseReply_returns; eassumption].
    unfold V1.findOne, mbind, M_bind at 1. rewrite doctors_logged, Hnone.
    eapply nurseReply_returns; eassumption.
Qed.

(** The generic branch when a hand-off is offered. *)
Lemma afterPending_offer (w w1 : V1.World) (id : N) (question lower : jsstring)
    (c : V1.Conversation) (d : Doctor) :
  V1.validate c = true ->
  V1.type c = V1.type_ai ->
  V1.detectDoctorIntent toLowerCase oracle question w = (inr true, w1) ->
  findOneBySpecialty (V1.doctors w) (V1.chatSpecialty lower) = Some d ->
  let c' := V1.push (V1.setPendingDoctor c (Some d)) assistant (V1.confirmMsg d) in
  V1.afterPending toLowerCase oracle id question lower c w =
    (inr (V1.Success (V1.confirmMsg d) (V1.messages c') None (Some d)),
     V1.stored id c' (V1.logged (triageprompt question) w)).
Proof.
  intros Hv Ht Hint Hd c'.
  pose proof (detectDoctorIntent_logged _ _ _ _ Hint) as ->.
  unfold V1.afterPending. rewrite Ht.
  unfold mbind at 1, M_bind at 1. rewrite Hint.
  unfold V1.findOne, mbind at 1, M_bind at 1. rewrite doctors_logged, Hd. run1.
  autorewrite with validate. now rewrite Hv.
Qed.

(** The doctor-persona branch. *)
Lemma afterPending_doctor (w : V1.World) (id : N) (question lower answer : jsstring)
    (c : V1.Conversation) (d : Doctor) (result : GenResult) :
  V1.validate c = true ->
  V1.type c = V1.type_doctor ->
  V1.doctor c = Some d ->
  oracle (V1.doctorPrompt d question) = Resolves result ->
  V1.textOrNoReply result = inr answer ->
  falsy answer = false ->
  V1.afterPending toLowerCase oracle id question lower c w =
    (inr (V1.Success answer (V1.messages (V1.push c assistant answer)) (Some d) None),
     V1.stored id (V1.push c assistant answer)
       (V1.logged (V1.doctorPrompt d question) w)).
Proof.
  intros Hv Ht Hd Ho Hx Ha. unfold V1.afterPending. rewrite Ht, Hd. run1.
  rewrite Ho, Hx. autorewrite with validate. rewrite Hv, Ha.
  change (V1.doctor (V1.push c assistant answer)) with (V1.doctor c).
  now rewrite Hd.
Qed.

Lemma notConfirming_neither (c : V1.Conversation) (lower : jsstring) :
  V1.someIncluded V1.affirmative lower = false ->
  V1.someIncluded V1.negative lower = false ->
  V1.notConfirming c lower = true.
Proof.
  intros Ha Hb. unfold V1.notConfirming. rewrite Ha, Hb. now destruct (V1.pendingDoctor c).
Qed.

(** C3, as amended.  In the hand-off pending mode, a message whose
    lower-cased text contains neither an affirmative nor a negative word is
    handled by the generic branch and the mode stays hand-off pending.
    When the classifier returns true and the directory has a doctor of the
    specialty matched from this message, that doctor becomes the pending
    doctor and the confirmation question for that doctor is the reply;
    when the classifier returns false or no such doctor exists, the pending
    doctor is unchanged and the nurse reply is appended and returned. *)
Theorem chat_ambiguous_pending (w w1 : V1.World) (id : N) (uid question : jsstring)
    (c : V1.Conversation) (wants : bool) :
  V1.conversations w !! id = Some c ->
  V1.validate c = true ->
  V1.mode c = V1.doctorHandoffPending ->
  falsy uid = false -> falsy question = false ->
  V1.someIncluded V1.affirmative (toLowerCase question) = false ->
  V1.someIncluded V1.negative (toLowerCase question) = false ->
  V1.detectDoctorIntent toLowerCase oracle question w = (inr wants, w1) ->
  (forall d,
      wants = true ->
      findOneBySpecialty (V1.doctors w) (V1.chatSpecialty (toLowerCase question)) = Some d ->
      let c' := V1.push (V1.setPendingDoctor (V1.push c user question) (Some d))
                  assistant (V1.confirmMsg d) in
      chat id uid question w =
        (V1.Success (V1.confirmMsg d) (V1.messages c') None (Some d), V1.stored id c' w1)
      /\ V1.mode c' = V1.doctorHandoffPending
      /\ V1.pendingDoctor c' = Some d)
  /\
  (forall result answer,
      wants = false \/
      findOneBySpecialty (V1.doctors w) (V1.chatSpecialty (toLowerCase question)) = None ->
      oracle (V1.aiPrompt question) = Resolves result ->
      V1.textOrNoReply result = inr answer ->
      falsy answer = false ->
      let c' := V1.push (V1.push c user question) assistant answer in
      chat id uid question w =
        (V1.Success answer (V1.messages c') None None,
         V1.stored id c' (V1.logged (V1.aiPrompt question) w1))
      /\ V1.mode c' = V1.doctorHandoffPending
      /\ V1.pendingDoctor c' = V1.pendingDoctor c).
Proof.
  intros Hc Hv Hm Hu Hq Ha Hb Hint.
  pose proof (detectDoctorIntent_logged _ _ _ _ Hint) as Hw1.
  pose proof Hm as Hm'. apply mode_pending in Hm' as [Ht [d0 Hp]].
  assert (Hv' : V1.validate (V1.push c user question) = true).
  { autorewrite with validate. now rewrite Hv, Hq. }
  pose proof (chat_falls_through w id uid question c Hc Hu Hq
                (notConfirming_neither c _ Ha Hb)) as Hfall.
  split.
  - intros d -> Hd c'. split; [| split].
    + rewrite Hfall. unfold V1.tryCatch.
      rewrite (afterPending_offer w w1 id question _ _ d Hv' Ht Hint Hd).
      now rewrite Hw1.
    + apply mode_pending. split; [exact Ht | now exists d].
    + reflexivity.
  - intros result answer Hor Ho Hx Hans c'. split; [| split].
    + rewrite Hfall. unfold V1.tryCatch.
      rewrite (afterPending_nurse w w1 id question _ answer _ wants result
                 Hv' Ht Hint Hor Ho Hx Hans).
      now rewrite Hw1.
    + exact Hm.
    + reflexivity.
Qed.

(** The cases the expression [result?.response?.text() ?? ...] guards.
    In the doctor-persona branch and in the nurse branch, when the result,
    its response or the value returned by [text()] is null or undefined,
    the turn succeeds: the assistant message appended after the user
    message, and returned as the reply, is the fixed placeholder. *)
Theorem chat_placeholder_reply :
  (forall (w : V1.World) (id : N) (uid question : jsstring)
          (c : V1.Conversation) (d : Doctor) (result : GenResult),
      V1.conversations w !! id = Some c ->
      V1.validate c = true ->
      V1.invariant c ->
      V1.mode c = V1.doctorActive ->
      V1.doctor c = Some d ->
      falsy uid = false -> falsy question = false ->
      oracle (V1.doctorPrompt d question) = Resolves result ->
      V1.yieldsNoText result = true ->
      let c' := V1.push (V1.push c user question) assistant noReply in
      chat id uid question w =
        (V1.Success noReply (V1.messages c') (Some d) None,
         V1.stored id c' (V1.logged (V1.doctorPrompt d question) w)))
  /\
  (forall (w w1 : V1.World) (id : N) (uid question : jsstring)
          (c : V1.Conversation) (wants : bool) (result : GenResult),
      V1.conversations w !! id = Some c ->
      V1.validate c = true ->
      V1.mode c = V1.generic ->
      falsy uid = false -> falsy question = false ->
      V1.detectDoctorIntent toLowerCase oracle question w = (inr wants, w1) ->
      wants = false \/
      findOneBySpecialty (V1.doctors w) (V1.chatSpecialty (toLowerCase question)) = None ->
      oracle (V1.aiPrompt question) = Resolves result ->
      V1.yieldsNoText result = true ->
      let c' := V1.push (V1.push c user question) assistant noReply in
      chat id uid question w =
        (V1.Success noReply (V1.messages c') None None,
         V1.stored id c' (V1.logged (V1.aiPrompt question) w1))).
Proof.
  assert (Hno : forall result, V1.yieldsNoText result = true ->
                               V1.textOrNoReply result = inr noReply).
  { intros []; simpl; congruence. }
  split.
  - intros w id uid question c d result Hc Hv [_ Hinv] Hm Hd Hu Hq Ho Hy c'.
    assert (Hp : V1.pendingDoctor c = None).
    { destruct (V1.pendingDoctor c) as [p|] eqn:E; [| reflexivity].
      assert (V1.mode c = V1.doctorHandoffPending) by (apply Hinv; eauto).
      congruence. }
    rewrite (chat_falls_through w id uid question c Hc Hu Hq)
      by (unfold V1.notConfirming; now rewrite Hp).
    unfold V1.tryCatch.
    rewrite (afterPending_doctor w id question _ noReply _ d result); auto.
    + autorewrite with validate. now rewrite Hv, Hq.
    + now apply mode_active.
  - intros w w1 id uid question c wants result Hc Hv Hm Hu Hq Hint Hor Ho Hy c'.
    pose proof (detectDoctorIntent_logged _ _ _ _ Hint) as Hw1.
    apply mode_generic in Hm as [Ht Hp].
    rewrite (chat_falls_through w id uid question c Hc Hu Hq)
      by (unfold V1.notConfirming; now rewrite Hp).
    unfold V1.tryCatch.
    rewrite (afterPending_nurse w w1 id question _ noReply _ wants result); auto.
    + now rewrite Hw1.
    + autorewrite with validate. now rewrite Hv, Hq.
Qed.

(** ** Every outcome of the chat route *)

Lemma detectDoctorIntent_frame (text : jsstring) (w : V1.World) :
  V1.outcome (V1.detectDoctorIntent toLowerCase oracle text) w
    (fun _ w' => w' = V1.logged (triageprompt text) w) (V1.untouched w).
Proof.
  unfold V1.outcome.
  destruct (V1.detectDoctorIntent toLowerCase oracle text w) as [[e|b] w'] eqn:E;
    apply detectDoctorIntent_logged in E; now subst.
Qed.

Lemma nurseReply_outcome (w w0 : V1.World) (id : N) (question : jsstring)
    (c0 : V1.Conversation) :
  V1.untouched w0 w ->
  V1.type c0 = V1.type_ai \/ V1.doctor c0 = None ->
  V1.outcome (V1.nurseReply oracle id question (V1.push c0 user question)) w
    (V1.turned w0 id c0 question) (V1.untouched w0).
Proof.
  intros Hw Hgen. unfold V1.outcome. run1.
  destruct (oracle (V1.aiPrompt question)) as [|result]; [exact Hw |].
  destruct (V1.textOrNoReply result) as [e|answer]; [exact Hw |].
  destruct (V1.validate _); [| exact Hw].
  exists answer, (V1.push (V1.push c0 user question) assistant answer), None, None.
  split; [reflexivity | split; [now constructor |]].
  autorewrite with world. now rewrite Hw.
Qed.

Lemma afterPending_outcome (w : V1.World) (id : N) (question lower : jsstring)
    (c0 : V1.Conversation) :
  V1.outcome (V1.afterPending toLowerCase oracle id question lower
             (V1.push c0 user question)) w
    (V1.turned w id c0 question) (V1.untouched w).
Proof.
  unfold V1.afterPending.
  change (V1.type (V1.push c0 user question)) with (V1.type c0).
  change (V1.doctor (V1.push c0 user question)) with (V1.doctor c0).
  assert (Hgeneric : V1.type c0 = V1.type_ai \/ V1.doctor c0 = None ->
    V1.outcome
      (wantsDoctor ← V1.detectDoctorIntent toLowerCase oracle question;
       if wantsDoctor : bool then
         found ← V1.findOne (V1.chatSpecialty lower);
         match found with
         | Some d =>
             _ ← V1.save id (V1.push (V1.setPendingDoctor (V1.push c0 user question)
                                        (Some d)) assistant (V1.confirmMsg d));
             mret (V1.Success (V1.confirmMsg d)
                     (V1.messages (V1.push (V1.setPendingDoctor
                                              (V1.push c0 user question) (Some d))
                                     assistant (V1.confirmMsg d)))
                     None (Some d))
         | None => V1.nurseReply oracle id question (V1.push c0 user question)
         end
       else V1.nurseReply oracle id question (V1.push c0 user question)) w
      (V1.turned w id c0 question) (V1.untouched w)).
  { intros Hgen. unfold V1.outcome, mbind at 1, M_bind at 1.
    pose proof (detectDoctorIntent_frame question w) as Hd. unfold V1.outcome in Hd.
    destruct (V1.detectDoctorIntent toLowerCase oracle question w) as [[e|wants] w1].
    - exact Hd.
    - subst w1. destruct wants.
      + unfold V1.findOne, mbind at 1, M_bind at 1.
        destruct (findOneBySpecialty _ _) as [d|].
        * run1. destruct (V1.validate _); [| reflexivity].
          exists (V1.confirmMsg d),
            (V1.push (V1.setPendingDoctor (V1.push c0 user question) (Some d))
               assistant (V1.confirmMsg d)), None, (Some d).
          split; [reflexivity | split; [now apply V1.turn_offer | reflexivity]].
        * now apply nurseReply_outcome.
      + now apply nurseReply_outcome. }
  destruct (V1.type c0) eqn:Ht.
  - apply Hgeneric. now left.
  - destruct (V1.doctor c0) as [d|] eqn:Hd.
    + unfold V1.outcome. run1.
      destruct (oracle (V1.doctorPrompt d question)) as [|result]; [reflexivity |].
      destruct (V1.textOrNoReply result) as [e|answer]; [reflexivity |].
      destruct (V1.validate _); [| reflexivity].
      exists answer, (V1.push (V1.push c0 user question) assistant answer),
        (V1.doctor c0), None.
      split; [reflexivity | split; [now apply (V1.turn_doctor _ _ d) | reflexivity]].
    + apply Hgeneric. now right.
Qed.

(** The chat route as a whole: a success is a transition of the state
    machine stored under the conversation identifier; any other answer
    leaves the stored conversations as they were. *)
Lemma chat_outcome (w : V1.World) (id : N) (uid question : jsstring) :
  match chat id uid question w with
  | (V1.Success answer msgs doc pending, w') =>
      exists c c',
        V1.conversations w !! id = Some c /\
        V1.Turn c question answer c' /\
        msgs = V1.messages c' /\
        V1.conversations w' = <[id := c']> (V1.conversations w)
  | (_, w') => V1.conversations w' = V1.conversations w
  end.
Proof.
  unfold V1.chat, V1.tryCatch.
  destruct (falsy uid || falsy question); [reflexivity |].
  unfold V1.findById, mbind at 1, M_bind at 1.
  destruct (V1.conversations w !! id) as [c|] eqn:Hc; [| reflexivity].
  cbv zeta.
  change (V1.pendingDoctor (V1.push c user question)) with (V1.pendingDoctor c).
  assert (Hafter :
    match
      (let (r, w') := V1.afterPending toLowerCase oracle id question
                        (toLowerCase question) (V1.push c user question) w in
       match r with
       | inr r0 => (r0, w')
       | inl e => (V1.Status500 e, w')
       end)
    with
    | (V1.Success answer msgs doc pending, w') =>
        exists c0 c',
          Some c = Some c0 /\ V1.Turn c0 question answer c' /\
          msgs = V1.messages c' /\
          V1.conversations w' = <[id := c']> (V1.conversations w)
    | (_, w') => V1.conversations w' = V1.conversations w
    end).
  { pose proof (afterPending_outcome w id question (toLowerCase question) c) as H.
    unfold V1.outcome in H.
    destruct (V1.afterPending _ _ _ _ _ _ w) as [[e|r] w']; [exact H |].
    destruct H as (answer & c' & doc & pending & -> & Ht & Hs).
    now exists c, c'. }
  destruct (V1.pendingDoctor c) as [d|] eqn:Hp; [| exact Hafter].
  destruct (V1.someIncluded V1.affirmative (toLowerCase question)).
  { run1. destruct (V1.validate _); [| reflexivity].
    exists c, (V1.push (V1.setPendingDoctor
                          (V1.assignDoctor (V1.push c user question) d) None)
                 assistant (V1.acceptNotice d)).
    split; [reflexivity | split; [now apply V1.turn_accept |]].
    split; reflexivity. }
  destruct (V1.someIncluded V1.negative (toLowerCase question)); [| exact Hafter].
  run1. destruct (V1.validate _); [| reflexivity].
  exists c, (V1.push (V1.setPendingDoctor (V1.push c user question) None)
               assistant V1.declineNotice).
  split; [reflexivity | split; [now apply (V1.turn_decline _ _ d) |]].
  split; reflexivity.
Qed.

End ChatRoute.

(** ** Properties of the store kept by the chat route *)

Section ChatPreserves.

Variable toLowerCase : jsstring -> jsstring.
Variable oracle : jsstring -> GenOutcome.

(** A property of the store that does not look at the oracle log and
    that is kept when a validated conversation is stored. *)
Variable P : V1.World -> Prop.
Hypothesis P_logged : forall p w, P w -> P (V1.logged p w).
Hypothesis P_stored :
  forall id c w, V1.validate c = true -> P w -> P (V1.stored id c w).

Lemma preserves_bind {A B} (m : M V1.World A) (k : A -> M V1.World B) :
  V1.preserves P m -> (forall a, V1.preserves P (k a)) ->
  V1.preserves P (m ≫= k).
Proof.
  intros Hm Hk w Hw. unfold mbind, M_bind. specialize (Hm w Hw).
  destruct (m w) as [[e|a] w1]; simpl in *; [exact Hm |].
  now apply Hk.
Qed.

Lemma preserves_ret {A} (a : A) : V1.preserves P (mret a : M V1.World A).
Proof. now intros w. Qed.

Lemma preserves_throw {A} (e : Exn) : V1.preserves P (throw e : M V1.World A).
Proof. now intros w. Qed.

Lemma preserves_eval {A} (r : Exn + A) : V1.preserves P (eval r : M V1.World A).
Proof. now intros w. Qed.

Lemma preserves_findById (id : N) : V1.preserves P (V1.findById id).
Proof. now intros w. Qed.

Lemma preserves_findOne (sp : jsstring) : V1.preserves P (V1.findOne sp).
Proof. now intros w. Qed.

Lemma preserves_save (id : N) (c : V1.Conversation) : V1.preserves P (V1.save id c).
Proof.
  intros w Hw. unfold V1.save. destruct (V1.validate c) eqn:Hv; [| exact Hw].
  now apply P_stored.
Qed.

Lemma preserves_generateContent (p : jsstring) :
  V1.preserves P (V1.generateContent oracle p).
Proof.
  intros w Hw. unfold V1.generateContent. destruct (oracle p); now apply P_logged.
Qed.

(** Applies the rules above along the structure of a handler body. *)
Ltac preserved :=
  repeat first
    [ apply preserves_ret | apply preserves_throw | apply preserves_eval
    | apply preserves_findById | apply preserves_findOne | apply preserves_save
    | apply preserves_generateContent
    | apply preserves_bind; [| intros ?]
    | match goal with
      | |- V1.preserves _ (match ?x with _ => _ end) => destruct x
      | |- V1.preserves _ (if ?b then _ else _) => destruct b
      end ].

(** The chat route maintains every such property. *)
Lemma chat_preserves (w : V1.World) (id : N) (uid question : jsstring) :
  P w -> P (snd (V1.chat toLowerCase oracle id uid question w)).
Proof.
  intros Hw. unfold V1.chat, V1.tryCatch.
  match goal with
  | |- P (snd (match ?m w with _ => _ end)) =>
      assert (H : V1.preserves P m);
      [| specialize (H w Hw); destruct (m w) as [[e|r] w']; exact H]
  end.
  unfold V1.afterPending, V1.nurseReply, V1.detectDoctorIntent. preserved.
Qed.

End ChatPreserves.

(** No path of the chat route writes a triage record. *)
Lemma chat_keeps_triages (toLowerCase : jsstring -> jsstring)
    (oracle : jsstring -> GenOutcome)
    (w : V1.World) (id : N) (uid question : jsstring) :
  V1.triages (snd (V1.chat toLowerCase oracle id uid question w)) = V1.triages w.
Proof.
  now apply (chat_preserves toLowerCase oracle
               (fun w' => V1.triages w' = V1.triages w)).
Qed.

(** Only validated conversations are ever stored, so the validity assumed
    of the stored conversation in the theorems on the chat route holds of
    every store the routes can build. *)
Lemma chat_keeps_valid (toLowerCase : jsstring -> jsstring)
    (oracle : jsstring -> GenOutcome)
    (w : V1.World) (id : N) (uid question : jsstring) :
  V1.storeValid w ->
  V1.storeValid (snd (V1.chat toLowerCase oracle id uid question w)).
Proof.
  apply (chat_preserves toLowerCase oracle V1.storeValid).
  - intros p w0 H. exact H.
  - intros i c w0 Hv H j c0. rewrite conversations_stored, lookup_insert.
    case_decide; [now intros [= <-] | apply H].
Qed.

Lemma createConversation_keeps_valid (w : V1.World) (uid : jsstring) (fresh : N) :
  V1.storeValid w -> V1.storeValid (snd (V1.createConversation uid fresh w)).
Proof.
  intros H. unfold V1.createConversation. destruct (falsy uid); [exact H |].
  unfold V1.save. destruct (V1.validate _) eqn:Hv; [| exact H].
  simpl. intros j c0. rewrite conversations_stored, lookup_insert.
  case_decide; [now intros [= <-] | apply H].
Qed.

(** ** The temp-chat route *)

Section TempChatRoute.

Variable toLowerCase : jsstring -> jsstring.
Variable oracle : jsstring -> GenOutcome.

Abbreviation tempChat := (V2.tempChat toLowerCase oracle).

(** The classifier writes to no collection. *)
Lemma detectDoctorIntent2_frame (text : jsstring) (w w1 : V2.World) (r : Exn + bool) :
  V2.detectDoctorIntent toLowerCase oracle text w = (r, w1) ->
  V2.tempConversations w1 = V2.tempConversations w /\
  V2.triages w1 = V2.triages w /\
  V2.doctors w1 = V2.doctors w.
Proof.
  unfold V2.detectDoctorIntent. destruct (falsy text).
  - intros [= <- <-]. now repeat split.
  - run2. destruct (oracle (triageprompt text)) as [|res].
    + intros [= <- <-]. now repeat split.
    + destruct (V2.answerOf toLowerCase res); intros [= <- <-]; now repeat split.
Qed.

Lemma triageSpecialty2_nonempty (lower : jsstring) :
  falsy (V2.triageSpecialty lower) = false.
Proof.
  unfold V2.triageSpecialty.
  repeat match goal with |- context [if ?b then _ else _] => destruct b end;
    reflexivity.
Qed.

(** The local routing step writes the triage record, and only that. *)
Lemma routeLocally_frame (uid question : jsstring) (wants : bool) (w w1 : V2.World)
    (r : Exn + (option Triage * option Doctor)) :
  falsy uid = false -> falsy question = false ->
  V2.routeLocally toLowerCase uid question wants w = (r, w1) ->
  V2.tempConversations w1 = V2.tempConversations w /\
  V2.triages w1 =
    V2.triages w ++
    (if wants then [ {| triageUserId := uid; symptoms := question;
                        suggestedSpecialty :=
                          V2.triageSpecialty (toLowerCase question) |} ]
     else []).
Proof.
  intros Hu Hq. unfold V2.routeLocally. destruct wants.
  - run2. unfold V2.validateTriage. simpl.
    rewrite Hu, Hq, triageSpecialty2_nonempty. simpl.
    destruct (findOneBySpecialty _ _); intros [= <- <-]; now split.
  - intros [= <- <-]. split; [reflexivity | now rewrite app_nil_r].
Qed.

(** A successful temp-chat turn appends the user message and the reply. *)
Lemma tempChat_success (w w' : V2.World) (id : N) (uid question answer : jsstring)
    (msgs : list Message) (triage : option Triage) (doc : option Doctor) :
  tempChat id uid question w = (V2.ChatSuccess answer msgs triage doc, w') ->
  exists c,
    V2.tempConversations w !! id = Some c /\
    msgs = V2.messages (V2.push (V2.push c user question) assistant answer) /\
    V2.tempConversations w' =
      <[id := V2.push (V2.push c user question) assistant answer]>
        (V2.tempConversations w).
Proof.
  unfold V2.tempChat, V2.tryCatch.
  destruct (falsy uid || falsy question) eqn:Hreq; [discriminate |].
  apply orb_false_iff in Hreq as [Hu Hq].
  unfold V2.findById, mbind at 1, M_bind at 1.
  destruct (V2.tempConversations w !! id) as [c|] eqn:Hc; [| discriminate].
  cbv zeta. unfold mbind at 1, M_bind at 1.
  destruct (V2.detectDoctorIntent toLowerCase oracle question w)
    as [[e|wants] w1] eqn:Hint; [discriminate |].
  apply detectDoctorIntent2_frame in Hint as (Hc1 & _ & _).
  unfold mbind at 1, M_bind at 1.
  destruct (V2.routeLocally toLowerCase uid question wants w1)
    as [[e|routed] w2] eqn:Hroute; [discriminate |].
  apply routeLocally_frame in Hroute as [Hc2 _]; [| assumption ..].
  run2.
  destruct (oracle _) as [|result]; [discriminate |].
  destruct (V2.textOrNoReply result) as [e|a]; [discriminate |].
  destruct (V2.validate _); [| discriminate].
  intros [= <- <- <- <- <-]. exists c.
  split; [reflexivity | split; [reflexivity |]].
  unfold V2.stored, V2.logged. simpl. now rewrite Hc2, Hc1.
Qed.

(** Whenever the classifier returns true, the temp-chat route has written
    the triage record with the matched specialty, whatever happens next. *)
Lemma tempChat_records_triage (w w1 : V2.World) (id : N) (uid question : jsstring)
    (c : V2.TempConversation) :
  V2.tempConversations w !! id = Some c ->
  falsy uid = false -> falsy question = false ->
  V2.detectDoctorIntent toLowerCase oracle question w = (inr true, w1) ->
  V2.triages (snd (tempChat id uid question w)) =
    V2.triages w ++
    [ {| triageUserId := uid; symptoms := question;
         suggestedSpecialty := V2.triageSpecialty (toLowerCase question) |} ].
Proof.
  intros Hc Hu Hq Hint. unfold V2.tempChat, V2.tryCatch. rewrite Hu, Hq.
  unfold V2.findById, mbind at 1, M_bind at 1. simpl. rewrite Hc.
  unfold mbind at 1, M_bind at 1. rewrite Hint.
  apply detectDoctorIntent2_frame in Hint as (_ & Ht1 & _).
  unfold mbind at 1, M_bind at 1.
  destruct (V2.routeLocally toLowerCase uid question true w1)
    as [[e|routed] w2] eqn:Hroute;
    apply routeLocally_frame in Hroute as [_ Ht2]; try assumption;
    rewrite Ht1 in Ht2.
  - exact Ht2.
  - run2. destruct (oracle _) as [|result]; [exact Ht2 |].
    destruct (V2.textOrNoReply result) as [e|a]; [exact Ht2 |].
    destruct (V2.validate _); exact Ht2.
Qed.

End TempChatRoute.

(** ** The specialty rule chains *)

(** The chain of the chat route gives the first matching group, in the
    order heart, skin, ear-nose-throat, default. *)
Lemma chatSpecialty_heart (lower : jsstring) :
  includes lower (js "tim") = true \/ includes lower (js "huyết áp") = true ->
  V1.chatSpecialty lower = timMach.
Proof. unfold V1.chatSpecialty. intros [-> | ->]; now rewrite ?orb_true_r. Qed.

Lemma chatSpecialty_skin (lower : jsstring) :
  includes lower (js "tim") = false -> includes lower (js "huyết áp") = false ->
  includes lower (js "da") = true \/ includes lower (js "mụn") = true ->
  V1.chatSpecialty lower = daLieu.
Proof.
  unfold V1.chatSpecialty. intros -> -> [-> | ->]; now rewrite ?orb_true_r.
Qed.

Lemma chatSpecialty_ent (lower : jsstring) :
  includes lower (js "tim") = false -> includes lower (js "huyết áp") = false ->
  includes lower (js "da") = false -> includes lower (js "mụn") = false ->
  includes lower (js "tai") = true \/ includes lower (js "mũi") = true
    \/ includes lower (js "họng") = true ->
  V1.chatSpecialty lower = taiMuiHong.
Proof.
  unfold V1.chatSpecialty. intros -> -> -> -> [-> | [-> | ->]];
    now rewrite ?orb_true_r.
Qed.

Lemma chatSpecialty_default (lower : jsstring) :
  includes lower (js "tim") = false -> includes lower (js "huyết áp") = false ->
  includes lower (js "da") = false -> includes lower (js "mụn") = false ->
  includes lower (js "tai") = false -> includes lower (js "mũi") = false ->
  includes lower (js "họng") = false ->
  V1.chatSpecialty lower = noiTongQuat.
Proof. unfold V1.chatSpecialty. now intros -> -> -> -> -> -> ->. Qed.

(** The chain of [triageRoute] and of the temp-chat route tests the skin
    group first. *)
Lemma triageSpecialty_skin_first (lower : jsstring) :
  includes lower (js "da") = true ->
  V1.triageSpecialty lower = daLieu /\ V2.triageSpecialty lower = daLieu.
Proof. unfold V1.triageSpecialty, V2.triageSpecialty. now intros ->. Qed.

Lemma triageSpecialty_same (lower : jsstring) :
  V1.triageSpecialty lower = V2.triageSpecialty lower.
Proof. reflexivity. Qed.

(** The chains see the text only through its lower-cased form; with the
    Latin table an upper-case keyword is matched. *)
Example chatSpecialty_upper_case :
  V1.chatSpecialty (toLowerCaseLatin (js "Đau TIM và nổi MỤN")) = timMach.
Proof. reflexivity. Qed.

Example chatSpecialty_no_keyword :
  V1.chatSpecialty (toLowerCaseLatin (js "Tôi bị sốt nhẹ")) = noiTongQuat.
Proof. reflexivity. Qed.

(** [triageRoute] of the first variant never answers with a success. *)
Lemma triageRoute1_fails (toLowerCase : jsstring -> jsstring)
    (uid symptoms : jsstring) (w : V1.World) :
  V1.triageRoute toLowerCase uid symptoms w =
    (if falsy uid || falsy symptoms then V1.Status400
     else V1.Status500 ReferenceError, w).
Proof.
  unfold V1.triageRoute, V1.tryCatch. now destruct (falsy uid || falsy symptoms).
Qed.

(** The two chains agree except on texts that match both the heart group
    and the skin group. *)
Lemma chains_agree (lower : jsstring) :
  (includes lower (js "tim") || includes lower (js "huyết áp")) &&
  (includes lower (js "da") || includes lower (js "mụn")) = false ->
  V1.triageSpecialty lower = V1.chatSpecialty lower.
Proof.
  unfold V1.triageSpecialty, V1.chatSpecialty.
  destruct (includes lower (js "tim") || includes lower (js "huyết áp"));
    destruct (includes lower (js "da") || includes lower (js "mụn"));
    simpl; intros H; congruence.
Qed.

(** C4.  On the lower-cased text "tim da", which contains both "tim" and
    "da", the chain of the chat route answers "Tim mạch", but the chain of
    [triageRoute] answers "Da liễu", and the triage endpoint stores and
    returns that specialty. *)
Theorem triageRoute_skin_before_heart :
  let text := js "tim da" in
  let lower := toLowerCaseLatin text in
  includes lower (js "tim") = true /\ includes lower (js "da") = true /\
  V1.chatSpecialty lower = timMach /\
  V1.triageSpecialty lower = daLieu /\
  V2.triageRoute toLowerCaseLatin Sample.uid text Sample.world2 =
    (V2.TriageSuccess
       {| triageUserId := Sample.uid; symptoms := text; suggestedSpecialty := daLieu |}
       Sample.drBinh,
     V2.recorded
       {| triageUserId := Sample.uid; symptoms := text; suggestedSpecialty := daLieu |}
       Sample.world2).
Proof. vm_compute. repeat split; reflexivity. Qed.

(** ** The intent classifier *)

Section Classifier.

Variable toLowerCase : jsstring -> jsstring.
Variable oracle : jsstring -> GenOutcome.

(** On a text answer both variants return whether the trimmed, lower-cased
    answer contains "yes". *)
Lemma detectDoctorIntent_text (text s : jsstring) (w : V1.World) :
  oracle (triageprompt text) = Resolves (TextReturns s) ->
  V1.detectDoctorIntent toLowerCase oracle text w =
    (inr (includes (toLowerCase (trim s)) (js "yes")),
     V1.logged (triageprompt text) w).
Proof. intros H. unfold V1.detectDoctorIntent. run1. now rewrite H. Qed.

Lemma detectDoctorIntent2_text (text s : jsstring) (w : V2.World) :
  falsy text = false ->
  oracle (triageprompt text) = Resolves (TextReturns s) ->
  V2.detectDoctorIntent toLowerCase oracle text w =
    (inr (includes (toLowerCase (trim s)) (js "yes")),
     V2.logged (triageprompt text) w).
Proof.
  intros Ht H. unfold V2.detectDoctorIntent. rewrite Ht. run2. rewrite H. simpl.
  now destruct (toLowerCase (trim s)).
Qed.

(** The second variant answers false when a member of the result is
    missing; the first variant throws there. *)
Lemma detectDoctorIntent2_missing (text : jsstring) (result : GenResult) (w : V2.World) :
  falsy text = false ->
  oracle (triageprompt text) = Resolves result ->
  result = ResultNullish \/ result = ResponseNullish \/ result = TextMissing ->
  V2.detectDoctorIntent toLowerCase oracle text w =
    (inr false, V2.logged (triageprompt text) w).
Proof.
  intros Ht H Hr. unfold V2.detectDoctorIntent. rewrite Ht. run2. rewrite H.
  now destruct Hr as [-> | [-> | ->]].
Qed.

(** Neither variant guards the value returned by [text()]. *)
Lemma detectDoctorIntent2_nullish_text (text : jsstring) (w : V2.World) :
  falsy text = false ->
  oracle (triageprompt text) = Resolves TextReturnsNullish ->
  V2.detectDoctorIntent toLowerCase oracle text w =
    (inl TypeError, V2.logged (triageprompt text) w).
Proof.
  intros Ht H. unfold V2.detectDoctorIntent. rewrite Ht. run2. now rewrite H.
Qed.

(** A failed oracle call is passed on by both variants. *)
Lemma detectDoctorIntent_rejected (text : jsstring) (w : V1.World) :
  oracle (triageprompt text) = Rejects ->
  V1.detectDoctorIntent toLowerCase oracle text w =
    (inl UpstreamError, V1.logged (triageprompt text) w).
Proof. intros H. unfold V1.detectDoctorIntent. run1. now rewrite H. Qed.

Lemma detectDoctorIntent_missing (text : jsstring) (result : GenResult) (w : V1.World) :
  oracle (triageprompt text) = Resolves result ->
  result = ResultNullish \/ result = ResponseNullish \/ result = TextMissing
    \/ result = TextReturnsNullish ->
  V1.detectDoctorIntent toLowerCase oracle text w =
    (inl TypeError, V1.logged (triageprompt text) w).
Proof.
  intros H Hr. unfold V1.detectDoctorIntent. run1. rewrite H.
  now destruct Hr as [-> | [-> | [-> | ->]]].
Qed.

End Classifier.

(** C5.  When the oracle resolves to an object without a [response]
    member, the classifier of the chat route does not return false: it
    throws a type error and the chat request is answered with status 500.
    The classifier of the temp-chat route returns false on the same
    result. *)
Theorem detectDoctorIntent_throws_on_missing_response :
  let text := js "tôi muốn gặp bác sĩ" in
  let w := Sample.world1 Sample.fresh1 in
  V1.detectDoctorIntent toLowerCaseLatin Sample.emptyResult text w =
    (inl TypeError, V1.logged (triageprompt text) w) /\
  V1.chat toLowerCaseLatin Sample.emptyResult 7 Sample.uid text w =
    (V1.Status500 TypeError, V1.logged (triageprompt text) w) /\
  V2.detectDoctorIntent toLowerCaseLatin Sample.emptyResult text Sample.world2 =
    (inr false, V2.logged (triageprompt text) Sample.world2).
Proof. vm_compute. repeat split; reflexivity. Qed.

(** C7.  With the classifier answering "yes" to "tôi muốn khám tim", the
    chat route matches "Tim mạch" and offers the doctor, and the triage
    collection is left empty; the temp-chat route, on the same question,
    appends the triage record with its matched specialty. *)
Theorem chat_writes_no_triage_record :
  let text := js "tôi muốn khám tim" in
  let oracle := Sample.stub (Sample.says "yes") (Sample.says "Bạn nên đi khám sớm.") in
  let w := Sample.world1 Sample.fresh1 in
  fst (V1.detectDoctorIntent toLowerCaseLatin oracle text w) = inr true /\
  V1.chatSpecialty (toLowerCaseLatin text) = timMach /\
  (exists msgs, fst (V1.chat toLowerCaseLatin oracle 7 Sample.uid text w) =
     V1.Success (V1.confirmMsg Sample.drAn) msgs None (Some Sample.drAn)) /\
  V1.triages w = [] /\
  V1.triages (snd (V1.chat toLowerCaseLatin oracle 7 Sample.uid text w)) = [] /\
  V2.triages (snd (V2.tempChat toLowerCaseLatin oracle 7 Sample.uid text Sample.world2)) =
    [ {| triageUserId := Sample.uid; symptoms := text; suggestedSpecialty := timMach |} ].
Proof.
  cbv zeta. repeat split; try (vm_compute; reflexivity).
  eexists. vm_compute. reflexivity.
Qed.

(** C10.  When the oracle call returns a response without a [text]
    member, the chat route does not fall back to the placeholder: calling
    the missing member throws a type error, in the doctor-persona branch
    and in the nurse branch alike, and the request is answered with status
    500 with nothing appended.  The temp-chat route, which guards the
    call, answers the same result with the placeholder. *)
Theorem chat_throws_on_missing_text :
  let question := js "tôi bị ho" in
  let noText := fun _ : jsstring => Resolves TextMissing in
  let nurseNoText := Sample.stub (Sample.says "no") (Resolves TextMissing) in
  V1.chat toLowerCaseLatin noText 7 Sample.uid question (Sample.world1 Sample.withAn) =
    (V1.Status500 TypeError,
     V1.logged (V1.doctorPrompt Sample.drAn question) (Sample.world1 Sample.withAn)) /\
  V1.chat toLowerCaseLatin nurseNoText 7 Sample.uid question
    (Sample.world1 Sample.fresh1) =
    (V1.Status500 TypeError,
     V1.logged (V1.aiPrompt question)
       (V1.logged (triageprompt question) (Sample.world1 Sample.fresh1))) /\
  fst (V2.tempChat toLowerCaseLatin nurseNoText 7 Sample.uid question Sample.world2) =
    V2.ChatSuccess noReply
      [ {| role := user; content := question |};
        {| role := assistant; content := noReply |} ]
      None None.
Proof. vm_compute. repeat split; reflexivity. Qed.

(** ** Transcript and invariant *)

(** Every transition appends the user message and one assistant message. *)
Lemma turn_messages (c c' : V1.Conversation) (question answer : jsstring) :
  V1.Turn c question answer c' ->
  V1.messages c' =
    V1.messages c ++ [ {| role := user; content := question |};
                       {| role := assistant; content := answer |} ].
Proof.
  intros []; unfold V1.push, V1.setPendingDoctor, V1.assignDoctor; simpl;
    now rewrite <- app_assoc.
Qed.

(** The invariant, by cases on the [type] field. *)
Lemma invariant_cases (c : V1.Conversation) :
  V1.invariant c <->
  (V1.type c = V1.type_ai /\ V1.doctor c = None) \/
  (V1.type c = V1.type_doctor /\ (exists d, V1.doctor c = Some d)
   /\ V1.pendingDoctor c = None).
Proof.
  unfold V1.invariant, V1.mode, is_Some.
  destruct (V1.type c), (V1.doctor c) as [d|], (V1.pendingDoctor c) as [p|]; split.
  all: try (intros [[H1 H2] [H3 H4]];
            first [ left; split; reflexivity
                  | right; split; [reflexivity | split; [eexists |]; reflexivity]
                  | discriminate H1; eexists; reflexivity
                  | discriminate H3; eexists; reflexivity
                  | destruct (H2 eq_refl) as [x Hx]; discriminate ]).
  all: intros [[Ht Hd] | [Ht [[d' Hd] Hp]]]; try discriminate;
    split; split; intros H; try discriminate; try (destruct H; discriminate);
    eauto.
Qed.

(** Every transition keeps the data invariant. *)
Lemma turn_invariant (c c' : V1.Conversation) (question answer : jsstring) :
  V1.invariant c -> V1.Turn c question answer c' -> V1.invariant c'.
Proof.
  rewrite !invariant_cases.
  intros Hinv [d Hp | d Hp | d a Hty Hd | d Hgen | a Hgen]; simpl.
  - right. eauto.
  - destruct Hinv as [Hai | (Hty & Hd & Hnone)]; [now left | congruence].
  - exact Hinv.
  - left. destruct Hinv as [Hai | (Hty & [d' Hd] & Hnone)]; [exact Hai |].
    destruct Hgen; congruence.
  - exact Hinv.
Qed.

(** C8.  Every successful turn of the chat route and of the temp-chat
    route leaves, under the conversation identifier, the transcript it
    found followed by exactly one user message, holding the incoming text,
    and exactly one assistant message, holding the reply; the returned
    transcript is that one. *)
Theorem successful_turn_appends_one_exchange
    (toLowerCase : jsstring -> jsstring) (oracle : jsstring -> GenOutcome) :
  (forall (w w' : V1.World) (id : N) (uid question answer : jsstring)
          (msgs : list Message) (doc pending : option Doctor),
      V1.chat toLowerCase oracle id uid question w =
        (V1.Success answer msgs doc pending, w') ->
      exists c c',
        V1.conversations w !! id = Some c /\
        V1.conversations w' !! id = Some c' /\
        V1.messages c' =
          V1.messages c ++ [ {| role := user; content := question |};
                             {| role := assistant; content := answer |} ] /\
        msgs = V1.messages c')
  /\
  (forall (w w' : V2.World) (id : N) (uid question answer : jsstring)
          (msgs : list Message) (triage : option Triage) (doc : option Doctor),
      V2.tempChat toLowerCase oracle id uid question w =
        (V2.ChatSuccess answer msgs triage doc, w') ->
      exists c c',
        V2.tempConversations w !! id = Some c /\
        V2.tempConversations w' !! id = Some c' /\
        V2.messages c' =
          V2.messages c ++ [ {| role := user; content := question |};
                             {| role := assistant; content := answer |} ] /\
        msgs = V2.messages c').
Proof.
  split.
  - intros w w' id uid question answer msgs doc pending H.
    pose proof (chat_outcome toLowerCase oracle w id uid question) as Ho.
    rewrite H in Ho. destruct Ho as (c & c' & Hc & Ht & -> & Hs).
    exists c, c'. rewrite Hs, lookup_insert_eq.
    repeat split; try assumption. now apply turn_messages.
  - intros w w' id uid question answer msgs triage doc H.
    apply tempChat_success in H as (c & Hc & -> & Hs).
    exists c, (V2.push (V2.push c user question) assistant answer).
    rewrite Hs, lookup_insert_eq. repeat split; try assumption.
    unfold V2.push. simpl. now rewrite <- app_assoc.
Qed.

(** C9.  The data invariant (a doctor is assigned exactly in the doctor
    mode, a doctor is pending exactly in the hand-off pending mode) holds
    of a new conversation, and a store whose conversations satisfy it
    still does after creating a conversation and after any request to the
    chat route, whatever the branch and whatever the answer. *)
Theorem invariant_preserved
    (toLowerCase : jsstring -> jsstring) (oracle : jsstring -> GenOutcome) :
  (forall uid, V1.invariant (V1.newConversation uid)) /\
  (forall (w : V1.World) (uid : jsstring) (fresh : N),
      V1.storeInvariant w ->
      V1.storeInvariant (snd (V1.createConversation uid fresh w))) /\
  (forall (w : V1.World) (id : N) (uid question : jsstring),
      V1.storeInvariant w ->
      V1.storeInvariant (snd (V1.chat toLowerCase oracle id uid question w))).
Proof.
  assert (Hnew : forall uid, V1.invariant (V1.newConversation uid)).
  { intros uid. split; split; unfold V1.mode; simpl; try discriminate;
      intros [x Hx]; discriminate. }
  assert (Hins : forall w id c,
             V1.storeInvariant w -> V1.invariant c ->
             forall i c0, <[id := c]> (V1.conversations w) !! i = Some c0 ->
                          V1.invariant c0).
  { intros w id c Hw Hc i c0. rewrite lookup_insert. case_decide.
    - now intros [= <-].
    - apply Hw. }
  split; [exact Hnew | split].
  - intros w uid fresh Hw. unfold V1.createConversation.
    destruct (falsy uid); [exact Hw |].
    unfold V1.save. destruct (V1.validate _); [| exact Hw].
    simpl. intros i c0. apply Hins; [exact Hw | apply Hnew].
  - intros w id uid question Hw.
    pose proof (chat_outcome toLowerCase oracle w id uid question) as Ho.
    destruct (V1.chat toLowerCase oracle id uid question w) as [r w'].
    simpl. intros i c0.
    destruct r as [| | e | answer msgs doc pending];
      try (unfold V1.storeInvariant in Hw; rewrite Ho; apply Hw).
    destruct Ho as (c & c' & Hc & Ht & _ & Hs). rewrite Hs.
    apply Hins; [exact Hw |].
    apply (turn_invariant c c' question answer); [now apply (Hw id) | exact Ht].
Qed.

(** ** Runs on sample requests *)

(** C3, as first stated, fails: the pending offer of a cardiologist is
    replaced by an offer of a dermatologist when the next message, "tôi muốn khám da", contains
    neither an affirmative nor a negative word and the classifier answers
    "yes": the mode stays hand-off pending but the pending doctor changes. *)
Lemma ambiguous_message_replaces_pending_doctor :
  let question := js "tôi muốn khám da" in
  let oracle := Sample.stub (Sample.says "yes") (Sample.says "Bạn nên đi khám sớm.") in
  let w := Sample.world1 Sample.pendingAn in
  let out := V1.chat toLowerCaseLatin oracle 7 Sample.uid question w in
  V1.mode Sample.pendingAn = V1.doctorHandoffPending /\
  V1.pendingDoctor Sample.pendingAn = Some Sample.drAn /\
  V1.someIncluded V1.affirmative (toLowerCaseLatin question) = false /\
  V1.someIncluded V1.negative (toLowerCaseLatin question) = false /\
  (exists msgs, fst out =
     V1.Success (V1.confirmMsg Sample.drBinh) msgs None (Some Sample.drBinh)) /\
  (exists c', V1.conversations (snd out) !! 7 = Some c' /\
              V1.mode c' = V1.doctorHandoffPending /\
              V1.pendingDoctor c' = Some Sample.drBinh /\
              V1.pendingDoctor c' <> V1.pendingDoctor Sample.pendingAn).
Proof.
  cbv zeta. repeat split; try (vm_compute; reflexivity).
  - eexists. vm_compute. reflexivity.
  - eexists. split; [vm_compute; reflexivity |].
    repeat split; try reflexivity. discriminate.
Qed.

(** Evaluates a closed hypothesis. *)
Ltac evaluated := vm_compute; reflexivity.

(** The accepted hand-off of the sample conversation, with an oracle that
    rejects every call. *)
Lemma chat_accept_handoff_witness :
  let question := js "có" in
  let w := Sample.world1 Sample.pendingAn in
  let c' := V1.push (V1.setPendingDoctor
                       (V1.assignDoctor (V1.push Sample.pendingAn user question)
                          Sample.drAn) None)
              assistant (V1.acceptNotice Sample.drAn) in
  V1.someIncluded V1.affirmative (toLowerCaseLatin question) = true /\
  V1.chat toLowerCaseLatin (fun _ => Rejects) 7 Sample.uid question w =
    (V1.Success (V1.acceptNotice Sample.drAn) (V1.messages c') (Some Sample.drAn) None,
     V1.stored 7 c' w).
Proof.
  cbv zeta. split; [evaluated |].
  apply (chat_accept_handoff toLowerCaseLatin (fun _ => Rejects)
           (Sample.world1 Sample.pendingAn) 7 Sample.uid (js "có")
           Sample.pendingAn Sample.drAn
           ltac:(evaluated) ltac:(evaluated) ltac:(evaluated)
           ltac:(evaluated) ltac:(evaluated) ltac:(evaluated)).
Defined.



(** An ambiguous message while the cardiologist is pending, answered by
    the nurse: the offer stays. *)
Lemma chat_ambiguous_pending_witness :
  let question := js "tôi bị đau đầu nhẹ" in
  let answer := js "Bạn nên nghỉ ngơi." in
  let oracle := Sample.stub (Sample.says "no") (Resolves (TextReturns answer)) in
  let w := Sample.world1 Sample.pendingAn in
  let c' := V1.push (V1.push Sample.pendingAn user question) assistant answer in
  V1.chat toLowerCaseLatin oracle 7 Sample.uid question w =
    (V1.Success answer (V1.messages c') None None,
     V1.stored 7 c' (V1.logged (V1.aiPrompt question)
                       (V1.logged (triageprompt question) w)))
  /\ V1.mode c' = V1.doctorHandoffPending
  /\ V1.pendingDoctor c' = V1.pendingDoctor Sample.pendingAn.
Proof.
  cbv zeta.
  apply (proj2
           (chat_ambiguous_pending toLowerCaseLatin
              (Sample.stub (Sample.says "no")
                 (Resolves (TextReturns (js "Bạn nên nghỉ ngơi."))))
              (Sample.world1 Sample.pendingAn)
              (V1.logged (triageprompt (js "tôi bị đau đầu nhẹ"))
                 (Sample.world1 Sample.pendingAn))
              7 Sample.uid (js "tôi bị đau đầu nhẹ") Sample.pendingAn false
              ltac:(evaluated) ltac:(evaluated) ltac:(evaluated) ltac:(evaluated)
              ltac:(evaluated) ltac:(evaluated) ltac:(evaluated) ltac:(evaluated))
           (TextReturns (js "Bạn nên nghỉ ngơi.")) (js "Bạn nên nghỉ ngơi.")
           (or_introl eq_refl) ltac:(evaluated) ltac:(evaluated) ltac:(evaluated)).
Defined.

(** The placeholder in the doctor mode (result without [response]) and
    in the generic mode ([text()] returning nothing), the guarded cases. *)
Lemma chat_placeholder_reply_witness :
  let question := js "tôi bị ho" in
  let nurse := Sample.stub (Sample.says "no") (Resolves TextReturnsNullish) in
  V1.chat toLowerCaseLatin Sample.emptyResult 7 Sample.uid question
    (Sample.world1 Sample.withAn) =
    (V1.Success noReply
       (V1.messages (V1.push (V1.push Sample.withAn user question) assistant noReply))
       (Some Sample.drAn) None,
     V1.stored 7 (V1.push (V1.push Sample.withAn user question) assistant noReply)
       (V1.logged (V1.doctorPrompt Sample.drAn question) (Sample.world1 Sample.withAn)))
  /\
  V1.chat toLowerCaseLatin nurse 7 Sample.uid question (Sample.world1 Sample.fresh1) =
    (V1.Success noReply
       (V1.messages (V1.push (V1.push Sample.fresh1 user question) assistant noReply))
       None None,
     V1.stored 7 (V1.push (V1.push Sample.fresh1 user question) assistant noReply)
       (V1.logged (V1.aiPrompt question)
          (V1.logged (triageprompt question) (Sample.world1 Sample.fresh1)))).
Proof.
  cbv zeta. split.
  - apply (proj1 (chat_placeholder_reply toLowerCaseLatin Sample.emptyResult)
             (Sample.world1 Sample.withAn) 7 Sample.uid (js "tôi bị ho")
             Sample.withAn Sample.drAn ResponseNullish);
      try evaluated.
    apply invariant_cases. right. repeat split; eauto.
  - apply (proj2 (chat_placeholder_reply toLowerCaseLatin
                    (Sample.stub (Sample.says "no") (Resolves TextReturnsNullish)))
             (Sample.world1 Sample.fresh1)
             (V1.logged (triageprompt (js "tôi bị ho")) (Sample.world1 Sample.fresh1))
             7 Sample.uid (js "tôi bị ho") Sample.fresh1 false TextReturnsNullish);
      try evaluated.
    now left.
Defined.

(** One successful turn on each route. *)
Lemma successful_turn_appends_one_exchange_witness :
  (exists c c',
      V1.conversations (Sample.world1 Sample.pendingAn) !! 7 = Some c /\
      V1.conversations
        (V1.stored 7
           (V1.push (V1.setPendingDoctor
                       (V1.assignDoctor (V1.push Sample.pendingAn user (js "có"))
                          Sample.drAn) None)
              assistant (V1.acceptNotice Sample.drAn))
           (Sample.world1 Sample.pendingAn)) !! 7 = Some c' /\
      V1.messages c' =
        V1.messages c ++ [ {| role := user; content := js "có" |};
                           {| role := assistant;
                              content := V1.acceptNotice Sample.drAn |} ] /\
      V1.messages (V1.push (V1.setPendingDoctor
                              (V1.assignDoctor (V1.push Sample.pendingAn user (js "có"))
                                 Sample.drAn) None)
                     assistant (V1.acceptNotice Sample.drAn)) = V1.messages c')
  /\
  (exists c c',
      V2.tempConversations Sample.world2 !! 7 = Some c /\
      V2.tempConversations
        (V2.stored 7
           (V2.push (V2.push (V2.newTempConversation Sample.uid) user (js "tôi bị ho"))
              assistant (js "Bạn nên nghỉ ngơi."))
           (V2.logged
              (V2.finalprompt
                 (V2.push (V2.newTempConversation Sample.uid) user (js "tôi bị ho")))
              (V2.logged (triageprompt (js "tôi bị ho")) Sample.world2))) !! 7
        = Some c' /\
      V2.messages c' =
        V2.messages c ++ [ {| role := user; content := js "tôi bị ho" |};
                           {| role := assistant;
                              content := js "Bạn nên nghỉ ngơi." |} ] /\
      [ {| role := user; content := js "tôi bị ho" |};
        {| role := assistant; content := js "Bạn nên nghỉ ngơi." |} ] = V2.messages c').
Proof.
  split.
  - apply (proj1 (successful_turn_appends_one_exchange toLowerCaseLatin (fun _ => Rejects))
             (Sample.world1 Sample.pendingAn) _ 7 Sample.uid (js "có")
             (V1.acceptNotice Sample.drAn) _ (Some Sample.drAn) None).
    evaluated.
  - apply (proj2 (successful_turn_appends_one_exchange toLowerCaseLatin
                    (Sample.stub (Sample.says "no") (Sample.says "Bạn nên nghỉ ngơi.")))
             Sample.world2 _ 7 Sample.uid (js "tôi bị ho")
             (js "Bạn nên nghỉ ngơi.") _ None None).
    evaluated.
Defined.

(** The invariant before and after the turn that replaces the pending
    doctor. *)
Lemma invariant_preserved_witness :
  V1.storeInvariant (Sample.world1 Sample.pendingAn) /\
  V1.storeInvariant
    (snd (V1.chat toLowerCaseLatin
            (Sample.stub (Sample.says "yes") (Sample.says "Bạn nên đi khám sớm."))
            7 Sample.uid (js "tôi muốn khám da") (Sample.world1 Sample.pendingAn))).
Proof.
  assert (H0 : V1.storeInvariant (Sample.world1 Sample.pendingAn)).
  { intros i c. unfold Sample.world1. simpl. rewrite lookup_singleton_Some.
    intros [_ <-]. apply invariant_cases. left. split; reflexivity. }
  split; [exact H0 |].
  apply (proj2 (proj2 (invariant_preserved toLowerCaseLatin
                         (Sample.stub (Sample.says "yes")
                            (Sample.says "Bạn nên đi khám sớm."))))).
  exact H0.
Defined.

(** * Further properties of the routes *)

(** ** The chat route: what a request can and cannot change *)

Section ChatFrame.

Variable toLowerCase : jsstring -> jsstring.
Variable oracle : jsstring -> GenOutcome.

Abbreviation chat1 := (V1.chat toLowerCase oracle).

(** The chat route never writes to the doctor collection. *)
Lemma chat_keeps_doctors (w : V1.World) (id : N) (uid question : jsstring) :
  V1.doctors (snd (chat1 id uid question w)) = V1.doctors w.
Proof.
  now apply (chat_preserves toLowerCase oracle
               (fun w' => V1.doctors w' = V1.doctors w)).
Qed.

(** X1.  A chat request that is not answered with a success commits
    nothing: the conversations, the triage records and the doctors are as
    before, so the user message pushed at the start of the turn is lost. *)
Theorem chat_failure_commits_nothing (w : V1.World) (id : N) (uid question : jsstring) :
  V1Routes.isSuccess (fst (chat1 id uid question w)) = false ->
  V1.conversations (snd (chat1 id uid question w)) = V1.conversations w /\
  V1.triages (snd (chat1 id uid question w)) = V1.triages w /\
  V1.doctors (snd (chat1 id uid question w)) = V1.doctors w.
Proof.
  intros Hfail.
  split; [| split; [apply chat_keeps_triages | apply chat_keeps_doctors]].
  pose proof (chat_outcome toLowerCase oracle w id uid question) as Ho.
  destruct (chat1 id uid question w) as [r w']. simpl in *.
  destruct r; try exact Ho. discriminate.
Qed.

(** X2.  A chat request on one conversation leaves every other stored
    conversation as it was, whatever the answer. *)
Theorem chat_touches_one_conversation (w : V1.World) (id j : N)
    (uid question : jsstring) :
  j <> id ->
  V1.conversations (snd (chat1 id uid question w)) !! j = V1.conversations w !! j.
Proof.
  intros Hj.
  pose proof (chat_outcome toLowerCase oracle w id uid question) as Ho.
  destruct (chat1 id uid question w) as [r w']. simpl.
  destruct r as [| | e | answer msgs doc pending]; try (now rewrite Ho).
  destruct Ho as (c & c' & _ & _ & _ & ->). now rewrite lookup_insert_ne.
Qed.

(** Step 3.3 sends the nurse prompt, whether or not it succeeds. *)
Lemma nurseReply_log (w : V1.World) (id : N) (question : jsstring)
    (c : V1.Conversation) :
  V1.oracleLog (snd (V1.nurseReply oracle id question c w)) =
    V1.oracleLog w ++ [V1.aiPrompt question].
Proof.
  run1. destruct (oracle (V1.aiPrompt question)) as [|result]; [reflexivity |].
  destruct (V1.textOrNoReply result) as [e|answer]; [reflexivity |].
  now destruct (V1.validate _).
Qed.

Lemma afterPending_log (w : V1.World) (id : N) (question lower : jsstring)
    (c : V1.Conversation) :
  let new := V1.oracleLog (snd (V1.afterPending toLowerCase oracle id question lower c w)) in
  new = V1.oracleLog w ++ [triageprompt question] \/
  new = V1.oracleLog w ++ [triageprompt question; V1.aiPrompt question] \/
  (exists d, V1.type c = V1.type_doctor /\ V1.doctor c = Some d /\
             new = V1.oracleLog w ++ [V1.doctorPrompt d question]).
Proof.
  assert (Hgeneric :
    let new := V1.oracleLog (snd (
      (wantsDoctor ← V1.detectDoctorIntent toLowerCase oracle question;
       if wantsDoctor : bool then
         found ← V1.findOne (V1.chatSpecialty lower);
         match found with
         | Some d =>
             _ ← V1.save id (V1.push (V1.setPendingDoctor c (Some d))
                               assistant (V1.confirmMsg d));
             mret (V1.Success (V1.confirmMsg d)
                     (V1.messages (V1.push (V1.setPendingDoctor c (Some d))
                                     assistant (V1.confirmMsg d)))
                     None (Some d))
         | None => V1.nurseReply oracle id question c
         end
       else V1.nurseReply oracle id question c) w)) in
    new = V1.oracleLog w ++ [triageprompt question] \/
    new = V1.oracleLog w ++ [triageprompt question; V1.aiPrompt question]).
  { cbv zeta. unfold mbind, M_bind, V1.findOne.
    destruct (V1.detectDoctorIntent toLowerCase oracle question w)
      as [[e|wants] w1] eqn:Hint;
      apply detectDoctorIntent_logged in Hint; subst w1; [now left |].
    assert (Hnurse :
      V1.oracleLog (snd (V1.nurseReply oracle id question c
                           (V1.logged (triageprompt question) w))) =
      V1.oracleLog w ++ [triageprompt question; V1.aiPrompt question]).
    { rewrite nurseReply_log, oracleLog_logged. now rewrite <- app_assoc. }
    destruct wants; [| right; exact Hnurse].
    destruct (findOneBySpecialty _ _) as [d|]; [| right; exact Hnurse].
    left. run1. now destruct (V1.validate _). }
  unfold V1.afterPending. cbv zeta in *.
  destruct (V1.type c) eqn:Ht.
  - destruct Hgeneric as [H | H]; [left | right; left]; exact H.
  - destruct (V1.doctor c) as [d|] eqn:Hd.
    + right. right. exists d. split; [reflexivity | split; [reflexivity |]].
      run1. destruct (oracle (V1.doctorPrompt d question)) as [|result]; [reflexivity |].
      destruct (V1.textOrNoReply result) as [e|answer]; [reflexivity |].
      now destruct (V1.validate _).
    + destruct Hgeneric as [H | H]; [left | right; left]; exact H.
Qed.

(** X5.  On a store whose conversation under the identifier, if any,
    satisfies the data invariant, a chat request sends at most two
    prompts, and only these sequences occur: none (bad request, unknown
    conversation, accepted or declined hand-off), the classification
    prompt alone, the classification prompt followed by the nurse prompt,
    or the doctor prompt alone, the last one only for a stored
    conversation of type doctor with its doctor. *)
Theorem chat_oracle_calls (w : V1.World) (id : N) (uid question : jsstring) :
  (forall c, V1.conversations w !! id = Some c -> V1.invariant c) ->
  exists sent,
    V1.oracleLog (snd (chat1 id uid question w)) = V1.oracleLog w ++ sent /\
    (sent = [] \/
     sent = [triageprompt question] \/
     sent = [triageprompt question; V1.aiPrompt question] \/
     (exists c d, V1.conversations w !! id = Some c /\
                  V1.type c = V1.type_doctor /\ V1.doctor c = Some d /\
                  sent = [V1.doctorPrompt d question])).
Proof.
  intros _.
  assert (Hnone : forall w' : V1.World, V1.oracleLog w' = V1.oracleLog w ->
            exists sent,
              V1.oracleLog w' = V1.oracleLog w ++ sent /\
              (sent = [] \/
               sent = [triageprompt question] \/
               sent = [triageprompt question; V1.aiPrompt question] \/
               (exists c d, V1.conversations w !! id = Some c /\
                            V1.type c = V1.type_doctor /\ V1.doctor c = Some d /\
                            sent = [V1.doctorPrompt d question]))).
  { intros w' H. exists []. rewrite app_nil_r. split; [exact H | now left]. }
  unfold V1.chat, V1.tryCatch.
  destruct (falsy uid || falsy question); [now apply Hnone |].
  unfold V1.findById, mbind at 1, M_bind at 1.
  destruct (V1.conversations w !! id) as [c|] eqn:Hc; [| now apply Hnone].
  cbv zeta.
  change (V1.pendingDoctor (V1.push c user question)) with (V1.pendingDoctor c).
  assert (Hafter :
    exists sent,
      V1.oracleLog (snd (
        let (r, w') := V1.afterPending toLowerCase oracle id question
                         (toLowerCase question) (V1.push c user question) w in
        match r with
        | inr r0 => (r0, w')
        | inl e => (V1.Status500 e, w')
        end)) = V1.oracleLog w ++ sent /\
      (sent = [] \/
       sent = [triageprompt question] \/
       sent = [triageprompt question; V1.aiPrompt question] \/
       (exists c0 d, Some c = Some c0 /\
                     V1.type c0 = V1.type_doctor /\ V1.doctor c0 = Some d /\
                     sent = [V1.doctorPrompt d question]))).
  { pose proof (afterPending_log w id question (toLowerCase question)
                  (V1.push c user question)) as H.
    cbv zeta in H.
    destruct (V1.afterPending _ _ _ _ _ _ w) as [[e|r] w']; simpl in *;
      (destruct H as [H | [H | (d & Ht & Hd & H)]];
       [ exists [triageprompt question]; split; [exact H | auto]
       | exists [triageprompt question; V1.aiPrompt question];
         split; [exact H | auto]
       | exists [V1.doctorPrompt d question]; split; [exact H |];
         right; right; right; exists c, d; auto ]). }
  destruct (V1.pendingDoctor c) as [d|]; [| exact Hafter].
  destruct (V1.someIncluded V1.affirmative (toLowerCase question)).
  { apply Hnone. run1. now destruct (V1.validate _). }
  destruct (V1.someIncluded V1.negative (toLowerCase question)); [| exact Hafter].
  apply Hnone. run1. now destruct (V1.validate _).
Qed.

End ChatFrame.

(** ** The chat route: sequences of turns *)

Section ChatTurns.

Variable toLowerCase : jsstring -> jsstring.
Variable oracle : jsstring -> GenOutcome.

Abbreviation chat2 := (V1.chat toLowerCase oracle).





(** X4.  The doctor mode is absorbing.  On a conversation in the doctor
    mode the route sends the doctor prompt and nothing else (the
    classifier is not consulted), and whatever the answer the stored
    conversation is still of type doctor with the same doctor and nothing
    pending. *)
Theorem doctor_mode_absorbing (w : V1.World) (id : N) (uid question : jsstring)
    (c : V1.Conversation) (d : Doctor) :
  V1.conversations w !! id = Some c ->
  V1.invariant c ->
  V1.mode c = V1.doctorActive ->
  V1.doctor c = Some d ->
  falsy uid = false -> falsy question = false ->
  V1.oracleLog (snd (chat2 id uid question w)) =
    V1.oracleLog w ++ [V1.doctorPrompt d question] /\
  exists c',
    V1.conversations (snd (chat2 id uid question w)) !! id = Some c' /\
    V1.type c' = V1.type_doctor /\ V1.doctor c' = Some d /\
    V1.pendingDoctor c' = None.
Proof.
  intros Hc Hinv Hm Hd Hu Hq.
  apply mode_active in Hm.
  assert (Hp : V1.pendingDoctor c = None).
  { apply invariant_cases in Hinv as [[Hai _] | (_ & _ & Hp)]; [congruence | exact Hp]. }
  rewrite (chat_falls_through toLowerCase oracle w id uid question c Hc Hu Hq)
    by (unfold V1.notConfirming; now rewrite Hp).
  unfold V1.afterPending.
  change (V1.type (V1.push c user question)) with (V1.type c).
  change (V1.doctor (V1.push c user question)) with (V1.doctor c).
  rewrite Hm, Hd. run1.
  destruct (oracle (V1.doctorPrompt d question)) as [|result];
    [split; [reflexivity | exists c; auto] |].
  destruct (V1.textOrNoReply result) as [e|answer];
    [split; [reflexivity | exists c; auto] |].
  destruct (V1.validate _); [| split; [reflexivity | exists c; auto]].
  split; [reflexivity |].
  exists (V1.push (V1.push c user question) assistant answer).
  split; [| auto]. apply lookup_insert_eq.
Qed.

(** X8.  A doctor is assigned only by confirming an offer: when a
    successful turn leaves the conversation in the doctor mode, either it
    was in the doctor mode before, with the same doctor, or it was in the
    hand-off pending mode and the doctor now assigned is the one that was
    pending.  No single turn leads from the generic mode to the doctor
    mode. *)
Theorem doctor_assigned_only_from_offer (w w' : V1.World) (id : N)
    (uid question answer : jsstring) (msgs : list Message)
    (doc pending : option Doctor) (c c' : V1.Conversation) :
  chat2 id uid question w = (V1.Success answer msgs doc pending, w') ->
  V1.conversations w !! id = Some c ->
  V1.invariant c ->
  V1.conversations w' !! id = Some c' ->
  V1.mode c' = V1.doctorActive ->
  (V1.mode c = V1.doctorActive /\ V1.doctor c' = V1.doctor c) \/
  (V1.mode c = V1.doctorHandoffPending /\ V1.doctor c' = V1.pendingDoctor c).
Proof.
  intros Hrun Hc Hinv Hc' Hm'.
  pose proof (chat_outcome toLowerCase oracle w id uid question) as Ho.
  rewrite Hrun in Ho. destruct Ho as (c0 & c1 & Hc0 & Ht & _ & Hs).
  rewrite Hc in Hc0. injection Hc0 as <-.
  rewrite Hs, lookup_insert_eq in Hc'. injection Hc' as <-.
  apply mode_active in Hm'.
  apply invariant_cases in Hinv.
  destruct Ht as [d Hp | d Hp | d a Hty Hd | d Hgen | a Hgen]; simpl in *.
  - right. split; [| now rewrite Hp].
    destruct Hinv as [[Hai _] | (_ & _ & Hnone)]; [| congruence].
    apply mode_pending. split; [exact Hai | now exists d].
  - destruct Hinv as [[Hai _] | (_ & _ & Hnone)]; congruence.
  - left. split; [now apply mode_active | reflexivity].
  - destruct Hinv as [[Hai _] | (Hty & [d' Hd] & _)]; [congruence |].
    destruct Hgen; congruence.
  - left. split; [now apply mode_active | reflexivity].
Qed.

End ChatTurns.

(** ** The conversation routes *)

Arguments V1Routes.preview : simpl never.
Arguments V1Routes.purgeEmpty : simpl never.

Lemma purgeEmpty_lookup (w : V1.World) (id : N) (c : V1.Conversation) :
  V1.conversations (V1Routes.purgeEmpty w) !! id = Some c <->
  V1.conversations w !! id = Some c /\ V1.messages c <> [].
Proof. unfold V1Routes.purgeEmpty. simpl. apply map_lookup_filter_Some. Qed.

Lemma purgeEmpty_idempotent (w : V1.World) :
  V1Routes.purgeEmpty (V1Routes.purgeEmpty w) = V1Routes.purgeEmpty w.
Proof.
  unfold V1Routes.purgeEmpty, V1Routes.withConversations. simpl. f_equal.
  apply map_eq. intros i. apply option_eq. intros c.
  rewrite !map_lookup_filter_Some. simpl. tauto.
Qed.

Section Listing.

Variable byCreatedAt : list (N * V1.Conversation) -> list (N * V1.Conversation).

(** Sorting rearranges the documents found and does nothing else. *)
Hypothesis byCreatedAt_perm : forall l, Permutation (byCreatedAt l) l.

Lemma findSorted_elem (matches : V1.Conversation -> Prop)
    `{!forall c, Decision (matches c)} (w : V1.World) (id : N) (c : V1.Conversation) :
  (id, c) ∈ V1Routes.findSorted byCreatedAt matches w <->
  V1.conversations w !! id = Some c /\ matches c.
Proof.
  unfold V1Routes.findSorted. rewrite (byCreatedAt_perm _).
  rewrite elem_of_map_to_list. apply map_lookup_filter_Some.
Qed.

Lemma findSorted_NoDup (matches : V1.Conversation -> Prop)
    `{!forall c, Decision (matches c)} (w : V1.World) :
  NoDup (fst <$> V1Routes.findSorted byCreatedAt matches w).
Proof.
  unfold V1Routes.findSorted. rewrite (byCreatedAt_perm _).
  apply NoDup_fst_map_to_list.
Qed.

(** X10.  The listing holds exactly the user's stored conversations with
    a non-empty transcript, each once, with the preview of each; the
    conversations of other users and the empty ones do not appear. *)
Theorem listing_content (w : V1.World) (uid : jsstring)
    (items : list (N * jsstring)) :
  fst (V1Routes.listConversations byCreatedAt uid w) = V1Routes.Listing items ->
  (forall id p,
      (id, p) ∈ items <->
      exists c, V1.conversations w !! id = Some c /\ V1.userId c = uid /\
                V1.messages c <> [] /\ p = V1Routes.preview c) /\
  NoDup (fst <$> items).
Proof.
  unfold V1Routes.listConversations. simpl. intros [= <-]. split.
  - intros id p. rewrite list_elem_of_fmap. split.
    + intros ([j c] & [= -> ->] & Hin). simpl.
      apply findSorted_elem in Hin as [Hc Hu].
      apply purgeEmpty_lookup in Hc as [Hc Hne]. now exists c.
    + intros (c & Hc & Hu & Hne & ->). exists (id, c). split; [reflexivity |].
      apply findSorted_elem. split; [| exact Hu].
      apply purgeEmpty_lookup. now split.
  - rewrite <- list_fmap_compose.
    apply (findSorted_NoDup (fun c => V1.userId c = uid)).
Qed.

End Listing.

(** X9.  Listing purges new conversations.  A conversation that has just
    been created has no message; the listing route, called for any user,
    deletes it, and a chat request on its identifier is then answered with
    status 404. *)
Theorem created_conversation_is_purged
    (byCreatedAt : list (N * V1.Conversation) -> list (N * V1.Conversation))
    (toLowerCase : jsstring -> jsstring) (oracle : jsstring -> GenOutcome)
    (w : V1.World) (uid lister question : jsstring) (fresh : N) :
  falsy uid = false -> falsy question = false ->
  let created := V1.createConversation uid fresh w in
  let listed := V1Routes.listConversations byCreatedAt lister (snd created) in
  fst created = Some fresh /\
  V1.conversations (snd created) !! fresh = Some (V1.newConversation uid) /\
  V1.conversations (snd listed) !! fresh = None /\
  V1.chat toLowerCase oracle fresh uid question (snd listed) =
    (V1.Status404, snd listed).
Proof.
  intros Hu Hq. cbv zeta.
  assert (Hcreated : V1.createConversation uid fresh w =
                     (Some fresh, V1.stored fresh (V1.newConversation uid) w)).
  { unfold V1.createConversation, V1.save, V1.validate. rewrite Hu.
    simpl. now rewrite Hu. }
  rewrite Hcreated. unfold V1Routes.listConversations. simpl.
  assert (Hgone :
    filter (fun kv : N * V1.Conversation => V1.messages (snd kv) <> [])
      (<[fresh := V1.newConversation uid]> (V1.conversations w)) !! fresh = None).
  { apply eq_None_not_Some. intros [c E].
    apply map_lookup_filter_Some in E as [E Hne].
    rewrite lookup_insert_eq in E. injection E as <-.
    now destruct Hne. }
  repeat split.
  - apply lookup_insert_eq.
  - exact Hgone.
  - unfold V1.chat, V1.tryCatch. rewrite Hu, Hq. run1.
    unfold V1Routes.purgeEmpty. simpl. now rewrite Hgone.
Qed.

(** X11.  A preview never has more than thirty code units; for a
    schema-valid conversation with a first message it is the first thirty
    code units of that message, so the placeholder text stands only for an
    empty transcript. *)
Theorem preview_bounds (c : V1.Conversation) :
  (length (V1Routes.preview c) <= 30)%nat /\
  (V1.messages c = [] -> V1Routes.preview c = V1Routes.noContent) /\
  (forall m rest,
      V1.validate c = true -> V1.messages c = m :: rest ->
      V1Routes.preview c = take 30 (content m)).
Proof.
  unfold V1Routes.preview. repeat split.
  - destruct (V1.messages c) as [|m rest]; [vm_compute; lia |]. simpl.
    destruct (falsy (take 30 (content m))); [vm_compute; lia |].
    rewrite length_take. lia.
  - now intros ->.
  - intros m rest Hv Hm. rewrite Hm. simpl.
    unfold V1.validate in Hv. rewrite Hm in Hv. simpl in Hv.
    apply andb_true_iff in Hv as [_ Hv]. apply andb_true_iff in Hv as [Hv _].
    destruct (content m) as [|x s]; [discriminate | reflexivity].
Qed.

(** X12.  Listing twice is listing once: after a listing, a second
    listing, for the same or for another user, deletes nothing more and
    answers as it would have on the original store. *)
Theorem listing_idempotent
    (byCreatedAt : list (N * V1.Conversation) -> list (N * V1.Conversation))
    (w : V1.World) (first second : jsstring) :
  V1Routes.listConversations byCreatedAt second
    (snd (V1Routes.listConversations byCreatedAt first w)) =
  V1Routes.listConversations byCreatedAt second w.
Proof.
  unfold V1Routes.listConversations. cbv zeta. simpl.
  now rewrite purgeEmpty_idempotent.
Qed.

(** Reading is idempotent and keeps the number of code units: what the
    store returns is returned unchanged when stored again. *)
Lemma toWellFormed_idempotent_aux (n : nat) : forall s : jsstring,
  (length s <= n)%nat ->
  V1Routes.toWellFormed (V1Routes.toWellFormed s) = V1Routes.toWellFormed s.
Proof.
  induction n as [|n IH]; intros [|c rest] Hlen; simpl in Hlen; try reflexivity; try lia.
  cbn [V1Routes.toWellFormed].
  destruct (V1Routes.isLowSurrogate c) eqn:Hlow.
  - cbn [V1Routes.toWellFormed]. change (V1Routes.isLowSurrogate 65533) with false.
    change (V1Routes.isHighSurrogate 65533) with false. cbv iota.
    rewrite IH by lia. reflexivity.
  - destruct (V1Routes.isHighSurrogate c) eqn:Hhigh.
    + destruct rest as [|d rest']; [reflexivity |].
      destruct (V1Routes.isLowSurrogate d) eqn:Hd.
      * cbn [V1Routes.toWellFormed]. rewrite Hlow, Hhigh, Hd.
        rewrite IH by (simpl in *; lia). reflexivity.
      * change (V1Routes.toWellFormed (65533 :: V1Routes.toWellFormed (d :: rest')))
          with (65533 :: V1Routes.toWellFormed (V1Routes.toWellFormed (d :: rest'))).
        rewrite IH by (simpl in *; lia). reflexivity.
    + cbn [V1Routes.toWellFormed]. rewrite Hlow, Hhigh.
      rewrite IH by lia. reflexivity.
Qed.

Lemma toWellFormed_idempotent (s : jsstring) :
  V1Routes.toWellFormed (V1Routes.toWellFormed s) = V1Routes.toWellFormed s.
Proof. now apply (toWellFormed_idempotent_aux (length s)). Qed.

Lemma toWellFormed_length (s : jsstring) :
  length (V1Routes.toWellFormed s) = length s.
Proof.
  assert (H : forall n (s : jsstring), (length s <= n)%nat ->
            length (V1Routes.toWellFormed s) = length s).
  { clear s. induction n as [|n IH]; intros [|c rest] Hlen; simpl in Hlen;
      try reflexivity; try lia.
    cbn [V1Routes.toWellFormed].
    destruct (V1Routes.isLowSurrogate c); [simpl; rewrite IH by lia; reflexivity |].
    destruct (V1Routes.isHighSurrogate c); [| simpl; rewrite IH by lia; reflexivity].
    destruct rest as [|d rest']; [reflexivity |].
    destruct (V1Routes.isLowSurrogate d).
    - simpl. rewrite IH by (simpl in *; lia). reflexivity.
    - cbn [length]. rewrite IH by (simpl in *; lia). reflexivity. }
  now apply (H (length s)).
Qed.

(** A transcript without a surrogate outside a pair is read as stored. *)
Lemma toWellFormed_messages (msgs : list Message) :
  Forall (fun m => V1Routes.toWellFormed (content m) = content m) msgs ->
  V1Routes.readMessage <$> msgs = msgs.
Proof.
  induction 1 as [|m rest Hm _ IH]; [reflexivity |].
  rewrite fmap_cons, IH. f_equal.
  destruct m as [r t]. unfold V1Routes.readMessage. simpl in *. now rewrite Hm.
Qed.

Section Identified.

Variable castObjectId : jsstring -> option N.
Variable toLowerCase : jsstring -> jsstring.
Variable oracle : jsstring -> GenOutcome.

Abbreviation chatRoute := (V1Routes.chatRoute castObjectId toLowerCase oracle).
Abbreviation getRoute := (V1Routes.getConversation castObjectId).
Abbreviation deleteRoute := (V1Routes.deleteConversation castObjectId).

(** X3.  A chat request without user identifier or without question is
    answered with status 400, whatever the conversation parameter.  A
    request with both is answered with status 500 when the parameter is
    not an ObjectId, and with status 404 when it is one under which no
    conversation is stored.  In all three cases the store is left
    untouched and no prompt is sent. *)
Theorem chat_rejects_bad_requests (w : V1.World) (param uid question : jsstring) :
  (falsy uid || falsy question = true ->
   chatRoute param uid question w = (V1.Status400, w)) /\
  (falsy uid || falsy question = false ->
   castObjectId param = None ->
   chatRoute param uid question w = (V1.Status500 CastError, w)) /\
  (forall id,
      falsy uid || falsy question = false ->
      castObjectId param = Some id ->
      V1.conversations w !! id = None ->
      chatRoute param uid question w = (V1.Status404, w)).
Proof.
  unfold V1Routes.chatRoute. repeat split.
  - intros H. now rewrite H.
  - intros H Hcast. now rewrite H, Hcast.
  - intros id H Hcast Hnone. rewrite H, Hcast.
    unfold V1.chat, V1.tryCatch. rewrite H. run1. now rewrite Hnone.
Qed.

(** X13.  Deleting a conversation is answered with status 500 when the
    parameter is not an ObjectId, and then changes nothing.  For an
    ObjectId it answers "not found" exactly when no conversation is stored
    under it, and then changes nothing; otherwise the conversation is
    gone, so reading it or chatting on it with the same parameter is
    answered with "not found", and every other conversation is as
    before. *)
Theorem delete_then_not_found (w : V1.World) (param uid question : jsstring) :
  let out := deleteRoute param w in
  (castObjectId param = None -> out = (V1Routes.ServerError CastError, w)) /\
  (forall id,
      castObjectId param = Some id ->
      (V1.conversations w !! id = None -> out = (V1Routes.NotFound, w)) /\
      (is_Some (V1.conversations w !! id) -> fst out = V1Routes.Deleted) /\
      V1.conversations (snd out) !! id = None /\
      (forall j, j <> id ->
                 V1.conversations (snd out) !! j = V1.conversations w !! j) /\
      getRoute param (snd out) = (V1Routes.NotFound, snd out) /\
      (falsy uid || falsy question = false ->
       chatRoute param uid question (snd out) = (V1.Status404, snd out))).
Proof.
  cbv zeta. unfold V1Routes.deleteConversation. split.
  - intros Hcast. now rewrite Hcast.
  - intros id Hcast. rewrite Hcast.
    destruct (V1.conversations w !! id) as [c|] eqn:Hc; simpl.
    + assert (Hgone : delete id (V1.conversations w) !! id = None)
        by apply lookup_delete_eq.
      repeat split; try discriminate; try exact Hgone.
      * intros j Hj. now apply lookup_delete_ne.
      * unfold V1Routes.getConversation. rewrite Hcast. simpl. now rewrite Hgone.
      * intros Hreq. unfold V1Routes.chatRoute. rewrite Hreq, Hcast.
        unfold V1.chat, V1.tryCatch. rewrite Hreq. run1. now rewrite Hgone.
    + repeat split; try exact Hc.
      * intros [x Hx]. discriminate.
      * unfold V1Routes.getConversation. now rewrite Hcast, Hc.
      * intros Hreq. unfold V1Routes.chatRoute. rewrite Hreq, Hcast.
        unfold V1.chat, V1.tryCatch. rewrite Hreq. run1. now rewrite Hc.
Qed.

(** X14.  Reading back a turn.  After a successful chat turn, reading the
    conversation returns the transcript of the turn and the stored doctor
    as the store gives them back, that is with every surrogate code unit
    outside a pair replaced by U+FFFD; when the contents of the returned
    transcript hold no such code unit, the transcript read is exactly the
    one the turn returned. *)
Theorem get_after_chat (w w' : V1.World) (param : jsstring) (id : N)
    (uid question answer : jsstring)
    (msgs : list Message) (doc pending : option Doctor) :
  castObjectId param = Some id ->
  chatRoute param uid question w = (V1.Success answer msgs doc pending, w') ->
  exists c',
    V1.conversations w' !! id = Some c' /\
    getRoute param w' =
      (V1Routes.Found (V1Routes.readMessage <$> msgs)
         (V1Routes.readDoctor <$> V1.doctor c'), w') /\
    (Forall (fun m => V1Routes.toWellFormed (content m) = content m) msgs ->
     getRoute param w' =
       (V1Routes.Found msgs (V1Routes.readDoctor <$> V1.doctor c'), w')).
Proof.
  intros Hcast Hrun. unfold V1Routes.chatRoute in Hrun. rewrite Hcast in Hrun.
  destruct (falsy uid || falsy question); [discriminate |].
  pose proof (chat_outcome toLowerCase oracle w id uid question) as Ho.
  rewrite Hrun in Ho. destruct Ho as (c & c' & _ & _ & -> & Hs).
  exists c'. assert (Hc' : V1.conversations w' !! id = Some c')
    by (rewrite Hs; apply lookup_insert_eq).
  assert (Hget : getRoute param w' =
            (V1Routes.Found (V1Routes.readMessage <$> V1.messages c')
               (V1Routes.readDoctor <$> V1.doctor c'), w')).
  { unfold V1Routes.getConversation. now rewrite Hcast, Hc'. }
  split; [exact Hc' | split; [exact Hget |]].
  intros Hwf. rewrite Hget. now rewrite (toWellFormed_messages _ Hwf).
Qed.

End Identified.

Section DoctorInfo.

Variable byCreatedAt : list (N * V1.Conversation) -> list (N * V1.Conversation).
Hypothesis byCreatedAt_perm : forall l, Permutation (byCreatedAt l) l.

(** X15.  The doctor-info route changes nothing.  It returns at most
    three recent doctors, each of them the doctor assigned in a stored
    conversation of type doctor of that user, and as suggestion the first
    doctor of the directory, which is absent only for an empty directory. *)
Theorem doctorInfo_content (w : V1.World) (uid : jsstring) :
  exists recent,
    V1Routes.doctorInfo byCreatedAt uid w =
      (V1Routes.DoctorInfo recent (head (V1.doctors w)), w) /\
    (length recent <= 3)%nat /\
    (forall x, x ∈ recent ->
               exists id c d,
                 x = Some d /\ V1.conversations w !! id = Some c /\
                 V1.userId c = uid /\ V1.type c = V1.type_doctor /\
                 V1.doctor c = Some d) /\
    (head (V1.doctors w) = None <-> V1.doctors w = []).
Proof.
  unfold V1Routes.doctorInfo. cbv zeta. eexists. split; [reflexivity |].
  split; [| split].
  - rewrite length_fmap, length_take. lia.
  - intros x Hx. apply list_elem_of_fmap in Hx as ([id c] & -> & Hin).
    apply subseteq_take in Hin.
    apply (findSorted_elem byCreatedAt byCreatedAt_perm) in Hin
      as (Hc & Hu & Ht & Hd).
    simpl. destruct (V1.doctor c) as [d|] eqn:E; [| now destruct Hd].
    now exists id, c, d.
  - now destruct (V1.doctors w).
Qed.

End DoctorInfo.

(** ** The triage route and the temp-chat route of the second variant *)

(** [Doctor.findOne({ specialty })] returns a doctor of the collection
    with that specialty, and nothing only when there is none. *)
Lemma findOneBySpecialty_Some (doctors : list Doctor) (sp : jsstring) (d : Doctor) :
  findOneBySpecialty doctors sp = Some d -> d ∈ doctors /\ specialty d = sp.
Proof.
  unfold findOneBySpecialty. intros H. apply find_some in H as [Hin Hsp].
  split; [now apply list_elem_of_In | now apply bool_decide_eq_true in Hsp].
Qed.

Lemma findOneBySpecialty_None (doctors : list Doctor) (sp : jsstring) :
  findOneBySpecialty doctors sp = None ->
  forall d, d ∈ doctors -> specialty d <> sp.
Proof.
  unfold findOneBySpecialty. intros H d Hin.
  apply list_elem_of_In in Hin. apply (find_none _ _ H) in Hin.
  now apply bool_decide_eq_false in Hin.
Qed.

Lemma triageSpecialty2_label (lower : jsstring) :
  V2.triageSpecialty lower ∈ [daLieu; timMach; taiMuiHong; noiTongQuat].
Proof.
  unfold V2.triageSpecialty.
  repeat match goal with |- context [if ?b then _ else _] => destruct b end;
    apply list_elem_of_In; simpl; auto 10.
Qed.

(** X16.  The triage route of the second variant.  Without user
    identifier or symptoms it answers with status 400 and writes nothing.
    Otherwise it always succeeds: it appends exactly one triage record,
    holding the user, the raw symptoms and one of the four specialty
    labels, and returns it with a doctor of that specialty, who is a
    doctor of the directory or, only when the directory has none of that
    specialty, the stand-in record. *)
Theorem triageRoute_records (toLowerCase : jsstring -> jsstring)
    (w : V2.World) (uid symptomText : jsstring) :
  (falsy uid || falsy symptomText = true ->
   V2.triageRoute toLowerCase uid symptomText w = (V2.Status400, w)) /\
  (falsy uid || falsy symptomText = false ->
   let t := {| triageUserId := uid; symptoms := symptomText;
               suggestedSpecialty := V2.triageSpecialty (toLowerCase symptomText) |} in
   exists d,
     V2.triageRoute toLowerCase uid symptomText w =
       (V2.TriageSuccess t d, V2.recorded t w) /\
     specialty d = suggestedSpecialty t /\
     suggestedSpecialty t ∈ [daLieu; timMach; taiMuiHong; noiTongQuat] /\
     (d ∈ V2.doctors w \/
      (d = placeholderDoctor (suggestedSpecialty t) /\
       forall d', d' ∈ V2.doctors w -> specialty d' <> suggestedSpecialty t))).
Proof.
  split.
  - intros H. unfold V2.triageRoute, V2.tryCatch. now rewrite H.
  - intros H t. unfold V2.triageRoute, V2.tryCatch. rewrite H.
    apply orb_false_iff in H as [Hu Hs]. run2.
    unfold V2.validateTriage. simpl.
    rewrite Hu, Hs, triageSpecialty2_nonempty. simpl.
    destruct (findOneBySpecialty (V2.doctors w)
                (V2.triageSpecialty (toLowerCase symptomText))) as [d|] eqn:Hd.
    + exists d. apply findOneBySpecialty_Some in Hd as [Hin Hsp].
      repeat split; auto. apply triageSpecialty2_label.
    + exists (placeholderDoctor (V2.triageSpecialty (toLowerCase symptomText))).
      repeat split; auto; [apply triageSpecialty2_label |].
      right. split; [reflexivity |]. now apply findOneBySpecialty_None.
Qed.

(** X21.  The two rule chains.  The chain of the chat route and the chain
    of the triage and temp-chat routes return the same specialty, except
    on the texts that match both a heart keyword and a skin keyword, where
    the chat route answers "Tim mạch" and the other routes "Da liễu". *)
Theorem chains_differ_only_on_heart_and_skin (lower : jsstring) :
  let heart := includes lower (js "tim") || includes lower (js "huyết áp") in
  let skin := includes lower (js "da") || includes lower (js "mụn") in
  if heart && skin
  then V1.chatSpecialty lower = timMach /\ V2.triageSpecialty lower = daLieu
       /\ V1.chatSpecialty lower <> V2.triageSpecialty lower
  else V1.chatSpecialty lower = V2.triageSpecialty lower.
Proof.
  cbv zeta. unfold V1.chatSpecialty, V2.triageSpecialty.
  destruct (includes lower (js "tim") || includes lower (js "huyết áp"));
    destruct (includes lower (js "da") || includes lower (js "mụn")); simpl;
    try reflexivity.
  repeat split. intros H. vm_compute in H. discriminate.
Qed.

Section TempChatMore.

Variable toLowerCase : jsstring -> jsstring.
Variable oracle : jsstring -> GenOutcome.

Abbreviation tempChat2 := (V2.tempChat toLowerCase oracle).

(** A classification of a non-empty text has sent exactly the
    classification prompt. *)
Lemma detectDoctorIntent2_logged (text : jsstring) (w w1 : V2.World) (r : Exn + bool) :
  falsy text = false ->
  V2.detectDoctorIntent toLowerCase oracle text w = (r, w1) ->
  w1 = V2.logged (triageprompt text) w.
Proof.
  intros Ht. unfold V2.detectDoctorIntent. rewrite Ht. run2.
  destruct (oracle (triageprompt text)) as [|res]; [congruence |].
  destruct (V2.answerOf toLowerCase res); congruence.
Qed.

(** The temp-chat route up to its final oracle call. *)
Lemma tempChat_run (w w1 : V2.World) (id : N) (uid question : jsstring)
    (c : V2.TempConversation) (wants : bool) :
  V2.tempConversations w !! id = Some c ->
  falsy uid = false -> falsy question = false ->
  V2.detectDoctorIntent toLowerCase oracle question w = (inr wants, w1) ->
  let t := {| triageUserId := uid; symptoms := question;
              suggestedSpecialty := V2.triageSpecialty (toLowerCase question) |} in
  let c1 := V2.push c user question in
  let w2 := if wants then V2.recorded t w1 else w1 in
  let routed :=
    if wants then
      (Some t, Some (default (placeholderDoctor (suggestedSpecialty t))
                       (findOneBySpecialty (V2.doctors w) (suggestedSpecialty t))))
    else (None, None) in
  tempChat2 id uid question w =
    match oracle (V2.finalprompt c1) with
    | Rejects => (V2.Status500 UpstreamError, V2.logged (V2.finalprompt c1) w2)
    | Resolves result =>
        match V2.textOrNoReply result with
        | inl e => (V2.Status500 e, V2.logged (V2.finalprompt c1) w2)
        | inr answer =>
            if V2.validate (V2.push c1 assistant answer) then
              (V2.ChatSuccess answer (V2.messages (V2.push c1 assistant answer))
                 (fst routed) (snd routed),
               V2.stored id (V2.push c1 assistant answer)
                 (V2.logged (V2.finalprompt c1) w2))
            else (V2.Status500 ValidationError, V2.logged (V2.finalprompt c1) w2)
        end
    end.
Proof.
  intros Hc Hu Hq Hint. cbv zeta.
  pose proof (detectDoctorIntent2_logged _ _ _ _ Hq Hint) as Hw1.
  unfold V2.tempChat, V2.tryCatch. rewrite Hu, Hq.
  unfold V2.findById, mbind at 1, M_bind at 1. simpl. rewrite Hc.
  unfold mbind at 1, M_bind at 1. rewrite Hint.
  unfold mbind at 1, M_bind at 1. unfold V2.routeLocally.
  destruct wants.
  - run2. unfold V2.validateTriage. simpl.
    rewrite Hu, Hq, triageSpecialty2_nonempty. simpl.
    assert (Hdocs : V2.doctors w1 = V2.doctors w) by now subst w1.
    rewrite Hdocs.
    destruct (findOneBySpecialty (V2.doctors w) _) as [d|]; simpl;
      (destruct (oracle _) as [|result]; [reflexivity |];
       destruct (V2.textOrNoReply result) as [e|answer]; [reflexivity |];
       now destruct (V2.validate _)).
  - run2. destruct (oracle _) as [|result]; [reflexivity |].
    destruct (V2.textOrNoReply result) as [e|answer]; [reflexivity |].
    now destruct (V2.validate _).
Qed.

(** X17.  A failure after the classification leaves a partial commit.
    When the classifier returns true and the final oracle call is
    rejected, the temp-chat route answers with status 500; the triage
    record of this question stays in the triage collection, while the
    stored conversation does not get the user message. *)
Theorem tempChat_partial_commit (w w1 : V2.World) (id : N) (uid question : jsstring)
    (c : V2.TempConversation) :
  V2.tempConversations w !! id = Some c ->
  falsy uid = false -> falsy question = false ->
  V2.detectDoctorIntent toLowerCase oracle question w = (inr true, w1) ->
  oracle (V2.finalprompt (V2.push c user question)) = Rejects ->
  fst (tempChat2 id uid question w) = V2.Status500 UpstreamError /\
  V2.tempConversations (snd (tempChat2 id uid question w)) = V2.tempConversations w /\
  V2.triages (snd (tempChat2 id uid question w)) =
    V2.triages w ++
    [ {| triageUserId := uid; symptoms := question;
         suggestedSpecialty := V2.triageSpecialty (toLowerCase question) |} ].
Proof.
  intros Hc Hu Hq Hint Hrej.
  pose proof (detectDoctorIntent2_logged _ _ _ _ Hq Hint) as Hw1.
  rewrite (tempChat_run w w1 id uid question c true Hc Hu Hq Hint), Hrej.
  subst w1. repeat split.
Qed.

(** X18.  What a successful temp-chat answer carries.  When the final
    oracle call gives a non-empty answer, the route succeeds with it.
    If the classifier returned false, the answer carries neither a triage
    record nor a doctor and the triage collection is unchanged; if it
    returned true, the answer carries the triage record just written and
    a doctor of the specialty of that record. *)
Theorem tempChat_answer (w w1 : V2.World) (id : N) (uid question answer : jsstring)
    (c : V2.TempConversation) (wants : bool) (result : GenResult) :
  V2.tempConversations w !! id = Some c ->
  V2.validate c = true ->
  falsy uid = false -> falsy question = false ->
  V2.detectDoctorIntent toLowerCase oracle question w = (inr wants, w1) ->
  oracle (V2.finalprompt (V2.push c user question)) = Resolves result ->
  V2.textOrNoReply result = inr answer ->
  falsy answer = false ->
  exists triage doc,
    fst (tempChat2 id uid question w) =
      V2.ChatSuccess answer
        (V2.messages c ++ [ {| role := user; content := question |};
                            {| role := assistant; content := answer |} ])
        triage doc /\
    (wants = false ->
     triage = None /\ doc = None /\
     V2.triages (snd (tempChat2 id uid question w)) = V2.triages w) /\
    (wants = true ->
     exists t d,
       triage = Some t /\ doc = Some d /\
       specialty d = suggestedSpecialty t /\
       suggestedSpecialty t = V2.triageSpecialty (toLowerCase question) /\
       V2.triages (snd (tempChat2 id uid question w)) = V2.triages w ++ [t]).
Proof.
  intros Hc Hv Hu Hq Hint Ho Hx Ha.
  pose proof (detectDoctorIntent2_logged _ _ _ _ Hq Hint) as Hw1.
  assert (Hmsgs :
    V2.messages (V2.push (V2.push c user question) assistant answer) =
    V2.messages c ++ [ {| role := user; content := question |};
                       {| role := assistant; content := answer |} ]).
  { unfold V2.push. simpl. now rewrite <- app_assoc. }
  rewrite (tempChat_run w w1 id uid question c wants Hc Hu Hq Hint), Ho, Hx.
  autorewrite with validate. rewrite Hv, Hq, Ha, Hmsgs.
  subst w1. destruct wants; simpl.
  - eexists _, _. split; [reflexivity |]. split; [discriminate |].
    intros _. eexists _, _. split; [reflexivity |]. split; [reflexivity |].
    split; [| split; reflexivity].
    destruct (findOneBySpecialty _ _) as [d|] eqn:Hd; simpl; [| reflexivity].
    now apply findOneBySpecialty_Some in Hd as [_ Hsp].
  - exists None, None. split; [reflexivity |]. split; [auto | discriminate].
Qed.

(** Every part of a joined list is contained in the result. *)
Lemma includes_join (sep : jsstring) (parts : list jsstring) (x : jsstring) :
  x ∈ parts -> includes (join sep parts) x = true.
Proof.
  intros Hin. apply includes_spec.
  induction parts as [|p rest IH]; [now apply elem_of_nil in Hin |].
  apply elem_of_cons in Hin as [-> | Hin].
  - destruct rest as [|q rest]; simpl.
    + exists [], []. now rewrite app_nil_r.
    + now exists [], (sep ++ join sep (q :: rest)).
  - destruct (IH Hin) as (pre & post & Hj).
    destruct rest as [|q rest]; [now apply elem_of_nil in Hin |].
    change (join sep (p :: q :: rest)) with (p ++ sep ++ join sep (q :: rest)).
    rewrite Hj. exists (p ++ sep ++ pre), post.
    now rewrite <- !app_assoc.
Qed.

Lemma includes_trans (s t u : jsstring) :
  includes s t = true -> includes t u = true -> includes s u = true.
Proof.
  rewrite !includes_spec. intros (a & b & ->) (a' & b' & ->).
  exists (a ++ a'), (b' ++ b). now rewrite <- !app_assoc.
Qed.

(** X19.  The temp-chat route sends the whole transcript.  Once the
    classifier has returned, the route sends exactly two prompts, the
    classification prompt and the final prompt; the final prompt contains
    the system instructions of the conversation, a line for every message
    stored so far and the line of the incoming question. *)
Theorem tempChat_sends_transcript (w w1 : V2.World) (id : N) (uid question : jsstring)
    (c : V2.TempConversation) (wants : bool) :
  V2.tempConversations w !! id = Some c ->
  falsy uid = false -> falsy question = false ->
  V2.detectDoctorIntent toLowerCase oracle question w = (inr wants, w1) ->
  let final := V2.finalprompt (V2.push c user question) in
  V2.oracleLog (snd (tempChat2 id uid question w)) =
    V2.oracleLog w ++ [triageprompt question; final] /\
  includes final (V2.systemInstructions c) = true /\
  includes final (js "user: " ++ question) = true /\
  (forall m, m ∈ V2.messages c ->
             includes final (roleName (role m) ++ js ": " ++ content m) = true).
Proof.
  intros Hc Hu Hq Hint final.
  pose proof (detectDoctorIntent2_logged _ _ _ _ Hq Hint) as Hw1.
  assert (Hline : forall m, m ∈ V2.messages (V2.push c user question) ->
            includes final (roleName (role m) ++ js ": " ++ content m) = true).
  { intros m Hm. subst final. unfold V2.finalprompt.
    apply (includes_trans _ (V2.history (V2.messages (V2.push c user question)))).
    - apply includes_join. apply list_elem_of_In. simpl. auto 10.
    - unfold V2.history. apply includes_join.
      apply list_elem_of_In, in_map_iff. exists m.
      split; [reflexivity | now apply list_elem_of_In]. }
  split; [| split; [| split]].
  - rewrite (tempChat_run w w1 id uid question c wants Hc Hu Hq Hint).
    fold final. subst w1.
    destruct (oracle final) as [|result];
      [destruct wants; simpl; now rewrite <- app_assoc |].
    destruct (V2.textOrNoReply result) as [e|answer];
      [destruct wants; simpl; now rewrite <- app_assoc |].
    destruct (V2.validate _); destruct wants; simpl; now rewrite <- app_assoc.
  - subst final. unfold V2.finalprompt. apply includes_join.
    apply list_elem_of_In. simpl. auto 10.
  - apply (Hline {| role := user; content := question |}).
    unfold V2.push. simpl. apply elem_of_app. right. apply list_elem_of_In. now left.
  - intros m Hm. apply Hline. unfold V2.push. simpl. apply elem_of_app. now left.
Qed.

(** X20.  First turn of a temporary conversation.  A conversation created
    for a user is found by the temp-chat route; when the classifier
    returns false and the oracle answers with a non-empty text, the first
    turn succeeds and the stored transcript is the question followed by
    that answer, under the default system instructions. *)
Theorem temp_conversation_first_turn (w w1 : V2.World) (fresh : N)
    (uid question answer : jsstring) :
  falsy uid = false -> falsy question = false -> falsy answer = false ->
  let created := V2Routes.createTempConversation uid fresh w in
  let first := V2.push (V2.newTempConversation uid) user question in
  V2.detectDoctorIntent toLowerCase oracle question (snd created) = (inr false, w1) ->
  oracle (V2.finalprompt first) = Resolves (TextReturns answer) ->
  fst created = Some fresh /\
  exists w',
    tempChat2 fresh uid question (snd created) =
      (V2.ChatSuccess answer
         [ {| role := user; content := question |};
           {| role := assistant; content := answer |} ] None None, w') /\
    V2.tempConversations w' !! fresh =
      Some {| V2.userId := uid;
              V2.messages := [ {| role := user; content := question |};
                               {| role := assistant; content := answer |} ];
              V2.systemInstructions := V2.defaultInstructions |}.
Proof.
  intros Hu Hq Ha created first Hint Ho.
  assert (Hcreated : created =
            (Some fresh, V2.stored fresh (V2.newTempConversation uid) w)).
  { subst created. unfold V2Routes.createTempConversation, V2.save, V2.validate.
    rewrite Hu. simpl. now rewrite Hu. }
  rewrite Hcreated in *. simpl in *. split; [reflexivity |].
  rewrite (tempChat_run _ w1 fresh uid question (V2.newTempConversation uid) false);
    auto; [| apply lookup_insert_eq].
  fold first. rewrite Ho. simpl.
  autorewrite with validate.
  assert (Hv : V2.validate (V2.newTempConversation uid) = true).
  { unfold V2.validate. simpl. now rewrite Hu. }
  subst first. autorewrite with validate. rewrite Hv, Hq, Ha. simpl.
  eexists. split; [reflexivity |]. apply lookup_insert_eq.
Qed.

End TempChatMore.

(** ** Runs of the further properties on sample requests *)

(** A doctor conversation whose oracle call is rejected: status 500 and
    nothing stored. *)
Lemma chat_failure_commits_nothing_witness :
  let out := V1.chat toLowerCaseLatin (fun _ => Rejects) 7 Sample.uid (js "tôi bị ho")
               (Sample.world1 Sample.withAn) in
  fst out = V1.Status500 UpstreamError /\
  V1.conversations (snd out) = V1.conversations (Sample.world1 Sample.withAn) /\
  V1.triages (snd out) = V1.triages (Sample.world1 Sample.withAn) /\
  V1.doctors (snd out) = V1.doctors (Sample.world1 Sample.withAn).
Proof.
  cbv zeta. split; [evaluated |].
  apply (chat_failure_commits_nothing toLowerCaseLatin (fun _ => Rejects)
           (Sample.world1 Sample.withAn) 7 Sample.uid (js "tôi bị ho")
           ltac:(evaluated)).
Defined.

(** A turn on conversation 1 of the archive leaves conversation 3 alone. *)
Lemma chat_touches_one_conversation_witness :
  V1.conversations
    (snd (V1.chat toLowerCaseLatin
            (Sample.stub (Sample.says "no") (Sample.says "Bạn nên nghỉ ngơi."))
            1 Sample.uid (js "tôi vẫn ho") SampleRoutes.archive)) !! 3 =
  V1.conversations SampleRoutes.archive !! 3.
Proof.
  apply (chat_touches_one_conversation toLowerCaseLatin
           (Sample.stub (Sample.says "no") (Sample.says "Bạn nên nghỉ ngơi."))
           SampleRoutes.archive 1 3 Sample.uid (js "tôi vẫn ho") ltac:(lia)).
Defined.

(** An empty question, a parameter that is not an ObjectId, and an
    ObjectId under which nothing is stored. *)
Lemma chat_rejects_bad_requests_witness :
  let w := Sample.world1 Sample.fresh1 in
  V1Routes.chatRoute SampleRoutes.hexObjectId toLowerCaseLatin (fun _ => Rejects)
    (js "000000000000000000000007") Sample.uid [] w = (V1.Status400, w) /\
  V1Routes.chatRoute SampleRoutes.hexObjectId toLowerCaseLatin (fun _ => Rejects)
    (js "abc") Sample.uid (js "chào") w = (V1.Status500 CastError, w) /\
  V1Routes.chatRoute SampleRoutes.hexObjectId toLowerCaseLatin (fun _ => Rejects)
    (js "000000000000000000000008") Sample.uid (js "chào") w = (V1.Status404, w).
Proof.
  cbv zeta. split; [| split].
  - apply (proj1 (chat_rejects_bad_requests SampleRoutes.hexObjectId toLowerCaseLatin
                    (fun _ => Rejects) (Sample.world1 Sample.fresh1)
                    (js "000000000000000000000007") Sample.uid [])
             ltac:(evaluated)).
  - apply (proj1 (proj2 (chat_rejects_bad_requests SampleRoutes.hexObjectId
                           toLowerCaseLatin (fun _ => Rejects)
                           (Sample.world1 Sample.fresh1) (js "abc") Sample.uid
                           (js "chào")))
             ltac:(evaluated) ltac:(evaluated)).
  - apply (proj2 (proj2 (chat_rejects_bad_requests SampleRoutes.hexObjectId
                           toLowerCaseLatin (fun _ => Rejects)
                           (Sample.world1 Sample.fresh1)
                           (js "000000000000000000000008") Sample.uid (js "chào")))
             8 ltac:(evaluated) ltac:(evaluated) ltac:(evaluated)).
Defined.

(** The prompts of an ambiguous message on the pending sample
    conversation. *)
Lemma chat_oracle_calls_witness :
  exists sent,
    V1.oracleLog
      (snd (V1.chat toLowerCaseLatin
              (Sample.stub (Sample.says "no") (Sample.says "Bạn nên nghỉ ngơi."))
              7 Sample.uid (js "tôi bị đau đầu nhẹ") (Sample.world1 Sample.pendingAn))) =
      V1.oracleLog (Sample.world1 Sample.pendingAn) ++ sent /\
    (sent = [] \/
     sent = [triageprompt (js "tôi bị đau đầu nhẹ")] \/
     sent = [triageprompt (js "tôi bị đau đầu nhẹ"); V1.aiPrompt (js "tôi bị đau đầu nhẹ")] \/
     (exists c d, V1.conversations (Sample.world1 Sample.pendingAn) !! 7 = Some c /\
                  V1.type c = V1.type_doctor /\ V1.doctor c = Some d /\
                  sent = [V1.doctorPrompt d (js "tôi bị đau đầu nhẹ")])).
Proof.
  apply (chat_oracle_calls toLowerCaseLatin
           (Sample.stub (Sample.says "no") (Sample.says "Bạn nên nghỉ ngơi."))
           (Sample.world1 Sample.pendingAn) 7 Sample.uid (js "tôi bị đau đầu nhẹ")).
  intros c. unfold Sample.world1. simpl. rewrite lookup_singleton_Some.
  intros [_ <-]. apply invariant_cases. left. split; reflexivity.
Defined.

(** In the doctor mode, a message asking for another doctor is sent to
    the doctor persona. *)
Lemma doctor_mode_absorbing_witness :
  let question := js "tôi muốn khám da" in
  let out := V1.chat toLowerCaseLatin
               (Sample.stub (Sample.says "yes") (Sample.says "Bạn nên đi khám da liễu."))
               7 Sample.uid question (Sample.world1 Sample.withAn) in
  V1.oracleLog (snd out) =
    V1.oracleLog (Sample.world1 Sample.withAn)
      ++ [V1.doctorPrompt Sample.drAn question] /\
  exists c',
    V1.conversations (snd out) !! 7 = Some c' /\
    V1.type c' = V1.type_doctor /\ V1.doctor c' = Some Sample.drAn /\
    V1.pendingDoctor c' = None.
Proof.
  cbv zeta.
  apply (doctor_mode_absorbing toLowerCaseLatin
           (Sample.stub (Sample.says "yes") (Sample.says "Bạn nên đi khám da liễu."))
           (Sample.world1 Sample.withAn) 7 Sample.uid (js "tôi muốn khám da")
           Sample.withAn Sample.drAn);
    try evaluated.
  apply invariant_cases. right. repeat split; eauto.
Defined.



(** The accepted offer of the sample conversation: the assigned doctor is
    the one that was pending. *)
Lemma doctor_assigned_only_from_offer_witness :
  let c' := V1.push (V1.setPendingDoctor
                       (V1.assignDoctor (V1.push Sample.pendingAn user (js "có"))
                          Sample.drAn) None)
              assistant (V1.acceptNotice Sample.drAn) in
  (V1.mode Sample.pendingAn = V1.doctorActive /\
   V1.doctor c' = V1.doctor Sample.pendingAn) \/
  (V1.mode Sample.pendingAn = V1.doctorHandoffPending /\
   V1.doctor c' = V1.pendingDoctor Sample.pendingAn).
Proof.
  cbv zeta.
  apply (doctor_assigned_only_from_offer toLowerCaseLatin (fun _ => Rejects)
           (Sample.world1 Sample.pendingAn)
           (V1.stored 7
              (V1.push (V1.setPendingDoctor
                          (V1.assignDoctor (V1.push Sample.pendingAn user (js "có"))
                             Sample.drAn) None)
                 assistant (V1.acceptNotice Sample.drAn))
              (Sample.world1 Sample.pendingAn))
           7 Sample.uid (js "có") (V1.acceptNotice Sample.drAn)
           (V1.messages
              (V1.push (V1.setPendingDoctor
                          (V1.assignDoctor (V1.push Sample.pendingAn user (js "có"))
                             Sample.drAn) None)
                 assistant (V1.acceptNotice Sample.drAn)))
           (Some Sample.drAn) None Sample.pendingAn);
    try evaluated.
  apply invariant_cases. left. split; reflexivity.
Defined.

(** A conversation created in the archive is gone after a listing for
    another user. *)
Lemma created_conversation_is_purged_witness :
  let created := V1.createConversation Sample.uid 9 SampleRoutes.archive in
  let listed := V1Routes.listConversations SampleRoutes.unsorted (js "u2") (snd created) in
  fst created = Some 9 /\
  V1.conversations (snd created) !! 9 = Some (V1.newConversation Sample.uid) /\
  V1.conversations (snd listed) !! 9 = None /\
  V1.chat toLowerCaseLatin (fun _ => Rejects) 9 Sample.uid (js "chào") (snd listed) =
    (V1.Status404, snd listed).
Proof.
  apply (created_conversation_is_purged SampleRoutes.unsorted toLowerCaseLatin
           (fun _ => Rejects) SampleRoutes.archive Sample.uid (js "u2") (js "chào") 9
           ltac:(evaluated) ltac:(evaluated)).
Defined.

(** The listing of the sample user in the archive. *)
Lemma listing_content_witness :
  let items :=
    [ (3, js "chào bác sĩ"); (1, js "tôi bị ho và sốt từ hôm qua, c") ] in
  (forall id p,
      (id, p) ∈ items <->
      exists c, V1.conversations SampleRoutes.archive !! id = Some c /\
                V1.userId c = Sample.uid /\ V1.messages c <> [] /\
                p = V1Routes.preview c) /\
  NoDup (fst <$> items).
Proof.
  cbv zeta.
  apply (listing_content SampleRoutes.unsorted ltac:(intros l; reflexivity)
           SampleRoutes.archive Sample.uid
           [ (3, js "chào bác sĩ"); (1, js "tôi bị ho và sốt từ hôm qua, c") ]
           ltac:(evaluated)).
Defined.

(** The preview of a long first message. *)
Lemma preview_bounds_witness :
  V1Routes.preview
    (SampleRoutes.talk Sample.uid "tôi bị ho và sốt từ hôm qua, có cần đi khám không ạ?") =
  take 30
    (content {| role := user;
                content := js "tôi bị ho và sốt từ hôm qua, có cần đi khám không ạ?" |}).
Proof.
  apply (proj2 (proj2 (preview_bounds
                         (SampleRoutes.talk Sample.uid
                            "tôi bị ho và sốt từ hôm qua, có cần đi khám không ạ?")))
           {| role := user;
              content := js "tôi bị ho và sốt từ hôm qua, có cần đi khám không ạ?" |}
           [] ltac:(evaluated) ltac:(evaluated)).
Defined.

(** Deleting conversation 3 of the archive, then chatting on it; and a
    parameter that is not an ObjectId. *)
Lemma delete_then_not_found_witness :
  let param := js "000000000000000000000003" in
  let out := V1Routes.deleteConversation SampleRoutes.hexObjectId param
               SampleRoutes.archive in
  fst out = V1Routes.Deleted /\
  V1Routes.chatRoute SampleRoutes.hexObjectId toLowerCaseLatin (fun _ => Rejects)
    param Sample.uid (js "chào") (snd out) = (V1.Status404, snd out) /\
  V1Routes.deleteConversation SampleRoutes.hexObjectId (js "3") SampleRoutes.archive =
    (V1Routes.ServerError CastError, SampleRoutes.archive).
Proof.
  cbv zeta.
  pose proof (proj2 (delete_then_not_found SampleRoutes.hexObjectId toLowerCaseLatin
                       (fun _ => Rejects) SampleRoutes.archive
                       (js "000000000000000000000003") Sample.uid (js "chào"))
                3 ltac:(evaluated))
    as (_ & Hdel & _ & _ & _ & Hchat).
  split; [apply Hdel; eexists; evaluated | split; [apply Hchat; evaluated |]].
  apply (proj1 (delete_then_not_found SampleRoutes.hexObjectId toLowerCaseLatin
                  (fun _ => Rejects) SampleRoutes.archive (js "3") Sample.uid
                  (js "chào"))
           ltac:(evaluated)).
Defined.

(** Reading back a question that ends in a high surrogate, which comes
    back as U+FFFD, and the accepted hand-off, which comes back as
    returned. *)
Lemma get_after_chat_witness :
  let param := js "000000000000000000000007" in
  let oracle := Sample.stub (Sample.says "no") (Sample.says "Bạn nên nghỉ ngơi.") in
  let question := js "ho " ++ [55357] in
  let w1 := snd (V1.chat toLowerCaseLatin oracle 7 Sample.uid question
                   (Sample.world1 Sample.fresh1)) in
  let msgs1 := [ {| role := user; content := question |};
                 {| role := assistant; content := js "Bạn nên nghỉ ngơi." |} ] in
  let w2 := snd (V1.chat toLowerCaseLatin (fun _ => Rejects) 7 Sample.uid (js "có")
                   (Sample.world1 Sample.pendingAn)) in
  let msgs2 := V1.messages Sample.pendingAn
                ++ [ {| role := user; content := js "có" |};
                     {| role := assistant; content := V1.acceptNotice Sample.drAn |} ] in
  (exists c',
     V1.conversations w1 !! 7 = Some c' /\
     V1Routes.getConversation SampleRoutes.hexObjectId param w1 =
       (V1Routes.Found (V1Routes.readMessage <$> msgs1)
          (V1Routes.readDoctor <$> V1.doctor c'), w1)) /\
  V1Routes.readMessage <$> msgs1 =
    [ {| role := user; content := js "ho " ++ [65533] |};
      {| role := assistant; content := js "Bạn nên nghỉ ngơi." |} ] /\
  (exists c',
     V1.conversations w2 !! 7 = Some c' /\
     V1Routes.getConversation SampleRoutes.hexObjectId param w2 =
       (V1Routes.Found msgs2 (V1Routes.readDoctor <$> V1.doctor c'), w2)).
Proof.
  cbv zeta. split; [| split].
  - destruct (get_after_chat SampleRoutes.hexObjectId toLowerCaseLatin
                (Sample.stub (Sample.says "no") (Sample.says "Bạn nên nghỉ ngơi."))
                (Sample.world1 Sample.fresh1) _ (js "000000000000000000000007") 7
                Sample.uid (js "ho " ++ [55357]) (js "Bạn nên nghỉ ngơi.")
                [ {| role := user; content := js "ho " ++ [55357] |};
                  {| role := assistant; content := js "Bạn nên nghỉ ngơi." |} ]
                None None ltac:(evaluated) ltac:(evaluated))
      as (c' & Hc' & Hget & _).
    exists c'. split; [exact Hc' | exact Hget].
  - evaluated.
  - destruct (get_after_chat SampleRoutes.hexObjectId toLowerCaseLatin (fun _ => Rejects)
                (Sample.world1 Sample.pendingAn) _ (js "000000000000000000000007") 7
                Sample.uid (js "có") (V1.acceptNotice Sample.drAn)
                (V1.messages Sample.pendingAn
                   ++ [ {| role := user; content := js "có" |};
                        {| role := assistant; content := V1.acceptNotice Sample.drAn |} ])
                (Some Sample.drAn) None ltac:(evaluated) ltac:(evaluated))
      as (c' & Hc' & _ & Hwf).
    exists c'. split; [exact Hc' | apply Hwf].
    apply Forall_forall. intros m Hm. apply list_elem_of_In in Hm.
    vm_compute in Hm. decompose [or] Hm; subst; try contradiction; evaluated.
Defined.

(** The doctor-info of the sample user in the archive. *)
Lemma doctorInfo_content_witness :
  exists recent,
    V1Routes.doctorInfo SampleRoutes.unsorted Sample.uid SampleRoutes.archive =
      (V1Routes.DoctorInfo recent (head (V1.doctors SampleRoutes.archive)),
       SampleRoutes.archive) /\
    (length recent <= 3)%nat /\
    (forall x, x ∈ recent ->
               exists id c d,
                 x = Some d /\ V1.conversations SampleRoutes.archive !! id = Some c /\
                 V1.userId c = Sample.uid /\ V1.type c = V1.type_doctor /\
                 V1.doctor c = Some d) /\
    (head (V1.doctors SampleRoutes.archive) = None <->
     V1.doctors SampleRoutes.archive = []).
Proof.
  apply (doctorInfo_content SampleRoutes.unsorted ltac:(intros l; reflexivity)
           SampleRoutes.archive Sample.uid).
Defined.

(** Triage of "da nổi mụn đỏ": the dermatologist of the directory. *)
Lemma triageRoute_records_witness :
  let t := {| triageUserId := Sample.uid; symptoms := js "da nổi mụn đỏ";
              suggestedSpecialty :=
                V2.triageSpecialty (toLowerCaseLatin (js "da nổi mụn đỏ")) |} in
  exists d,
    V2.triageRoute toLowerCaseLatin Sample.uid (js "da nổi mụn đỏ") Sample.world2 =
      (V2.TriageSuccess t d, V2.recorded t Sample.world2) /\
    specialty d = suggestedSpecialty t /\
    suggestedSpecialty t ∈ [daLieu; timMach; taiMuiHong; noiTongQuat] /\
    (d ∈ V2.doctors Sample.world2 \/
     (d = placeholderDoctor (suggestedSpecialty t) /\
      forall d', d' ∈ V2.doctors Sample.world2 -> specialty d' <> suggestedSpecialty t)).
Proof.
  apply (proj2 (triageRoute_records toLowerCaseLatin Sample.world2 Sample.uid
                  (js "da nổi mụn đỏ"))
           ltac:(evaluated)).
Defined.

(** The classifier says yes, the final call is rejected. *)
Lemma tempChat_partial_commit_witness :
  let question := js "tôi muốn khám tim" in
  let out := V2.tempChat toLowerCaseLatin (Sample.stub (Sample.says "yes") Rejects)
               7 Sample.uid question Sample.world2 in
  fst out = V2.Status500 UpstreamError /\
  V2.tempConversations (snd out) = V2.tempConversations Sample.world2 /\
  V2.triages (snd out) =
    V2.triages Sample.world2 ++
    [ {| triageUserId := Sample.uid; symptoms := question;
         suggestedSpecialty := V2.triageSpecialty (toLowerCaseLatin question) |} ].
Proof.
  cbv zeta.
  apply (tempChat_partial_commit toLowerCaseLatin
           (Sample.stub (Sample.says "yes") Rejects) Sample.world2
           (V2.logged (triageprompt (js "tôi muốn khám tim")) Sample.world2)
           7 Sample.uid (js "tôi muốn khám tim") (V2.newTempConversation Sample.uid)
           ltac:(evaluated) ltac:(evaluated) ltac:(evaluated) ltac:(evaluated)
           ltac:(evaluated)).
Defined.

(** The classifier says yes and the oracle answers. *)
Lemma tempChat_answer_witness :
  let question := js "tôi muốn khám tim" in
  let answer := js "Bạn nên đi khám sớm." in
  let out := V2.tempChat toLowerCaseLatin
               (Sample.stub (Sample.says "yes") (Resolves (TextReturns answer)))
               7 Sample.uid question Sample.world2 in
  exists triage doc,
    fst out =
      V2.ChatSuccess answer
        (V2.messages (V2.newTempConversation Sample.uid)
           ++ [ {| role := user; content := question |};
                {| role := assistant; content := answer |} ])
        triage doc /\
    (true = false ->
     triage = None /\ doc = None /\ V2.triages (snd out) = V2.triages Sample.world2) /\
    (true = true ->
     exists t d,
       triage = Some t /\ doc = Some d /\
       specialty d = suggestedSpecialty t /\
       suggestedSpecialty t = V2.triageSpecialty (toLowerCaseLatin question) /\
       V2.triages (snd out) = V2.triages Sample.world2 ++ [t]).
Proof.
  cbv zeta.
  apply (tempChat_answer toLowerCaseLatin
           (Sample.stub (Sample.says "yes")
              (Resolves (TextReturns (js "Bạn nên đi khám sớm."))))
           Sample.world2
           (V2.logged (triageprompt (js "tôi muốn khám tim")) Sample.world2)
           7 Sample.uid (js "tôi muốn khám tim") (js "Bạn nên đi khám sớm.")
           (V2.newTempConversation Sample.uid) true
           (TextReturns (js "Bạn nên đi khám sớm."))
           ltac:(evaluated) ltac:(evaluated) ltac:(evaluated) ltac:(evaluated)
           ltac:(evaluated) ltac:(evaluated) ltac:(evaluated) ltac:(evaluated)).
Defined.

(** The prompts of a temp-chat turn on the sample store. *)
Lemma tempChat_sends_transcript_witness :
  let question := js "tôi bị ho" in
  let c := V2.newTempConversation Sample.uid in
  let final := V2.finalprompt (V2.push c user question) in
  V2.oracleLog
    (snd (V2.tempChat toLowerCaseLatin
            (Sample.stub (Sample.says "no") (Sample.says "Bạn nên nghỉ ngơi."))
            7 Sample.uid question Sample.world2)) =
    V2.oracleLog Sample.world2 ++ [triageprompt question; final] /\
  includes final (V2.systemInstructions c) = true /\
  includes final (js "user: " ++ question) = true /\
  (forall m, m ∈ V2.messages c ->
             includes final (roleName (role m) ++ js ": " ++ content m) = true).
Proof.
  cbv zeta.
  apply (tempChat_sends_transcript toLowerCaseLatin
           (Sample.stub (Sample.says "no") (Sample.says "Bạn nên nghỉ ngơi."))
           Sample.world2
           (V2.logged (triageprompt (js "tôi bị ho")) Sample.world2)
           7 Sample.uid (js "tôi bị ho") (V2.newTempConversation Sample.uid) false
           ltac:(evaluated) ltac:(evaluated) ltac:(evaluated) ltac:(evaluated)).
Defined.

(** Creating a temporary conversation and taking its first turn. *)
Lemma temp_conversation_first_turn_witness :
  let question := js "tôi bị ho" in
  let answer := js "Bạn nên nghỉ ngơi." in
  let oracle := Sample.stub (Sample.says "no") (Resolves (TextReturns answer)) in
  let created := V2Routes.createTempConversation Sample.uid 9 Sample.world2 in
  fst created = Some 9 /\
  exists w',
    V2.tempChat toLowerCaseLatin oracle 9 Sample.uid question (snd created) =
      (V2.ChatSuccess answer
         [ {| role := user; content := question |};
           {| role := assistant; content := answer |} ] None None, w') /\
    V2.tempConversations w' !! 9 =
      Some {| V2.userId := Sample.uid;
              V2.messages := [ {| role := user; content := question |};
                               {| role := assistant; content := answer |} ];
              V2.systemInstructions := V2.defaultInstructions |}.
Proof.
  cbv zeta.
  apply (temp_conversation_first_turn toLowerCaseLatin
           (Sample.stub (Sample.says "no")
              (Resolves (TextReturns (js "Bạn nên nghỉ ngơi."))))
           Sample.world2
           (V2.logged (triageprompt (js "tôi bị ho"))
              (snd (V2Routes.createTempConversation Sample.uid 9 Sample.world2)))
           9 Sample.uid (js "tôi bị ho") (js "Bạn nên nghỉ ngơi.")
           ltac:(evaluated) ltac:(evaluated) ltac:(evaluated)
           ltac:(evaluated) ltac:(evaluated)).
Defined.
